(** * BabySchlaf-Sync: a shallow embedding of [server.js]

    The server keeps three SQLite tables ([families], [sync_data],
    [entries]) and answers six HTTP routes.  The tables are finite maps
    keyed by their primary keys, every prepared statement is a function on
    the database, and a route handler is a computation in a small
    state-and-exception monad: a statement that ran outside of
    [db.transaction] stays committed when a later statement throws.

    Modelling conventions.
    - Request fields carry the types of the HTTP interface; each of them
      may be absent ([None] stands for JavaScript's [undefined] and for
      [null]).  The fields that the server only tests for truth ([babies]
      and the [_deleted] of an entry) are any JSON value.  Strings are
      sequences of ASCII code units.
    - Timestamps are integers (seconds); the clock [Date.now()/1000] and
      SQLite's [unixepoch()] are a parameter [now] of each handler.
    - The [data] columns hold [JSON.stringify] of a value that came out of
      the body parser and are only read back through [JSON.parse]; they
      are modelled by the value itself.
    - [crypto.randomInt] is an oracle: the [k]-th call returns the [k]-th
      element of a stream, reduced into the requested range.
    - The only statement failure that is modelled is the one the schema
      itself can raise on these inputs, a constraint violation; requests
      with an [id] or [_ts] of another type, which the driver refuses to
      bind, are outside the model. *)

From Stdlib Require Import ZArith NArith String Ascii List Lia.
From stdpp Require Import gmap strings list fin_maps.

Open Scope string_scope.
Open Scope Z_scope.

(** ** JSON values and JavaScript truthiness *)

#[warnings="-register-all"] Inductive json : Type :=
| JNull
| JBool (b : bool)
| JNum (n : Z)
| JStr (s : string)
| JArr (items : list json)
| JObj (fields : list (string * json)).

Definition truthy (v : json) : bool :=
  match v with
  | JNull => false
  | JBool b => b
  | JNum n => negb (n =? 0)
  | JStr s => negb (String.eqb s "")
  | JArr _ | JObj _ => true
  end.

(** [v || d] for a possibly undefined JSON value. *)
Definition or_default (v : option json) (d : json) : json :=
  match v with
  | Some x => if truthy x then x else d
  | None => d
  end.

(** [n || d] for a possibly undefined number: [0] is falsy. *)
Definition num_or (n : option Z) (d : Z) : Z :=
  match n with
  | Some x => if x =? 0 then d else x
  | None => d
  end.

(** Truthiness of a possibly undefined string: [""] is falsy. *)
Definition str_truthy (s : option string) : bool :=
  match s with
  | Some x => negb (String.eqb x "")
  | None => false
  end.

(** Truthiness of a possibly undefined JSON value. *)
Definition opt_truthy (v : option json) : bool :=
  match v with
  | Some x => truthy x
  | None => false
  end.

(** ** Entries of a push batch

    [{id, _deleted, _ts, ...rest}]: the three fields the server looks at
    and the remaining payload, which it never inspects.  The server only
    tests [_deleted] for truth, so the field is any JSON value. *)

Record entry : Type := Entry {
  e_id : option string;
  e_deleted : option json;
  e_ts : option Z;
  e_rest : list (string * json)
}.

(** [d._deleted = true] *)
Definition set_deleted (d : entry) : entry :=
  {| e_id := e_id d; e_deleted := Some (JBool true); e_ts := e_ts d; e_rest := e_rest d |}.

(** ** The database *)

Record family_row : Type := FamilyRow {
  created_at : Z;
  last_sync : Z
}.

Record sync_row : Type := SyncRow {
  sd_data : json;
  sd_updated_at : Z
}.

Record entry_row : Type := EntryRow {
  en_data : entry;
  en_deleted : Z;
  en_updated_at : Z
}.

Record db : Type := Db {
  families : gmap string family_row;
  sync_data : gmap (string * string) sync_row;
  entries : gmap (string * string) entry_row
}.

Definition empty_db : db := Db ∅ ∅ ∅.

(** ** Statements: state and exceptions *)

Inductive error : Type :=
| SqliteConstraint.

Inductive result (A : Type) : Type :=
| Ok (a : A)
| Throw (e : error).
Arguments Ok {A} a.
Arguments Throw {A} e.

Definition stmt (A : Type) : Type := db -> db * result A.

Definition ret {A} (a : A) : stmt A := fun st => (st, Ok a).

Definition bind {A B} (m : stmt A) (k : A -> stmt B) : stmt B :=
  fun st =>
    match m st with
    | (st', Ok a) => k a st'
    | (st', Throw e) => (st', Throw e)
    end.

Definition throw {A} (e : error) : stmt A := fun st => (st, Throw e).

Notation "x <- m ;; k" := (bind m (fun x => k))
  (at level 100, m at next level, k at level 200, right associativity).
Notation "m ;;; k" := (bind m (fun _ => k))
  (at level 100, k at level 200, right associativity).

(** [db.transaction(fn)]: the writes of [fn] are committed when it
    returns and rolled back when it throws; the exception is rethrown. *)
Definition transaction {A} (fn : stmt A) : stmt A :=
  fun st =>
    match fn st with
    | (st', Ok a) => (st', Ok a)
    | (_, Throw e) => (st, Throw e)
    end.

(** [for (const e of items) body(e)] *)
Fixpoint for_of {A} (items : list A) (body : A -> stmt unit) : stmt unit :=
  match items with
  | [] => ret tt
  | e :: rest => body e ;;; for_of rest body
  end.

(** ** Prepared statements *)

(** [SELECT * FROM families WHERE code = ?] (also the [SELECT 1] form,
    of which only the presence of a row is used). *)
Definition select_family (code : string) : stmt (option (string * family_row)) :=
  fun st => (st, Ok (match families st !! code with
                     | Some r => Some (code, r)
                     | None => None
                     end)).

(** [INSERT INTO families (code) VALUES (?)]: both timestamps default to
    [unixepoch()]; the primary key rejects a code that is present. *)
Definition insert_family (now : Z) (code : string) : stmt unit :=
  fun st =>
    match families st !! code with
    | Some _ => (st, Throw SqliteConstraint)
    | None => (Db (<[code := FamilyRow now now]> (families st))
                  (sync_data st) (entries st), Ok tt)
    end.

(** [INSERT OR REPLACE INTO sync_data (family_code, device_id, data,
    updated_at) VALUES (?, ?, ?, ?)] *)
Definition replace_sync_data (code device_id : string) (data : json) (ts : Z)
  : stmt unit :=
  fun st => (Db (families st)
                (<[(code, device_id) := SyncRow data ts]> (sync_data st))
                (entries st), Ok tt).

(** [INSERT OR REPLACE INTO entries (family_code, entry_id, data, deleted,
    updated_at) VALUES (?, ?, ?, ?, ?)]: [entry_id] is [NOT NULL] and has
    no default, so binding an undefined id aborts the statement. *)
Definition upsert (code : string) (entry_id : option string) (data : entry)
    (deleted : Z) (ts : Z) : stmt unit :=
  fun st =>
    match entry_id with
    | None => (st, Throw SqliteConstraint)
    | Some i => (Db (families st) (sync_data st)
                    (<[(code, i) := EntryRow data deleted ts]> (entries st)),
                 Ok tt)
    end.

(** [SET last_sync = ?] on one row. *)
Definition touch_family (ts : Z) (r : family_row) : family_row :=
  FamilyRow (created_at r) ts.

(** [UPDATE families SET last_sync = ? WHERE code = ?] *)
Definition update_last_sync (ts : Z) (code : string) : stmt unit :=
  fun st => (Db (alter (touch_family ts) code (families st))
                (sync_data st) (entries st), Ok tt).

(** [SELECT data, deleted FROM entries WHERE family_code = ? AND
    updated_at > ?]; SQLite leaves the order of the rows open, the model
    lists them in the order of the keys. *)
Definition select_entries_since (code : string) (since : Z)
  : stmt (list (entry * Z)) :=
  fun st =>
    (st, Ok (omap (fun kr : (string * string) * entry_row =>
                     if decide (kr.1.1 = code ∧ since < en_updated_at kr.2)
                     then Some (en_data kr.2, en_deleted kr.2) else None)
                  (map_to_list (entries st)))).

(** [SELECT device_id, data, updated_at FROM sync_data WHERE
    family_code = ?] *)
Definition select_devices (code : string) : stmt (list (string * json * Z)) :=
  fun st =>
    (st, Ok (omap (fun kr : (string * string) * sync_row =>
                     if decide (kr.1.1 = code)
                     then Some (kr.1.2, sd_data kr.2, sd_updated_at kr.2) else None)
                  (map_to_list (sync_data st)))).

(** [SELECT COUNT( * ) as c FROM entries WHERE family_code = ? AND
    deleted = 0] *)
Definition count_live_entries (code : string) : stmt nat :=
  fun st =>
    (st, Ok (length (filter (fun kr : (string * string) * entry_row =>
                       kr.1.1 = code ∧ en_deleted kr.2 = 0)
                    (map_to_list (entries st))))).

(** ** Strings *)

(** One code unit of [String.prototype.toUpperCase]: [a]..[z] move down
    by 32, every other ASCII code unit is left as it is. *)
Definition upper_char (c : ascii) : ascii :=
  let n := N_of_ascii c in
  if ((97 <=? n) && (n <=? 122))%N then ascii_of_N (n - 32) else c.

Fixpoint toUpperCase (s : string) : string :=
  match s with
  | EmptyString => EmptyString
  | String c rest => String (upper_char c) (toUpperCase rest)
  end.

(** [s[i]] in a string concatenation: an index out of range is
    [undefined], which prints as ["undefined"]. *)
Definition index_str (s : string) (i : nat) : string :=
  match String.get i s with
  | Some c => String c EmptyString
  | None => "undefined"
  end.

(** ** Family codes *)

Definition chars : string := "ABCDEFGHJKLMNPQRSTUVWXYZ23456789".

(** [crypto.randomInt(max)] on the oracle's draw. *)
Definition randomInt (max : nat) (draw : nat) : nat := (draw mod max)%nat.

(** [for (let i = 0; i < n; i++) code += chars[crypto.randomInt(chars.length)]];
    [k] counts the calls of the random source. *)
Fixpoint fill_code (n : nat) (rnd : nat -> nat) (k : nat) (code : string)
  : string * nat :=
  match n with
  | O => (code, k)
  | S n' =>
      fill_code n' rnd (S k)
        (code ++ index_str chars (randomInt (String.length chars) (rnd k)))
  end.

(** [genCode]: the [do ... while (exists.get(code))] loop, with [fuel]
    bounding the number of attempts; [None] means that every attempt so
    far has hit a code that is taken. *)
Fixpoint genCode (fuel : nat) (rnd : nat -> nat) (k : nat) (st : db)
  : option (string * nat) :=
  match fuel with
  | O => None
  | S fuel' =>
      let (code, k') := fill_code 6 rnd k "" in
      match families st !! code with
      | Some _ => genCode fuel' rnd k' st
      | None => Some (code, k')
      end
  end.

(** ** Route handlers *)

Inductive reply (A : Type) : Type :=
| Json200 (body : A)
| Status400
| Status404
| Status500.
Arguments Json200 {A} body.
Arguments Status400 {A}.
Arguments Status404 {A}.
Arguments Status500 {A}.

(** A handler that throws is answered by Express with status 500; what
    its statements committed before the exception stays. *)
Definition serve {A} (h : stmt (reply A)) (st : db) : db * reply A :=
  match h st with
  | (st', Ok r) => (st', r)
  | (st', Throw _) => (st', Status500)
  end.

(** [POST /api/family/create] *)
Definition family_create (fuel : nat) (rnd : nat -> nat) (k : nat) (now : Z)
    (st : db) : option (db * reply string * nat) :=
  match genCode fuel rnd k st with
  | None => None
  | Some (code, k') =>
      let (st', r) := serve (insert_family now code ;;; ret (Json200 code)) st in
      Some (st', r, k')
  end.

(** [POST /api/family/join] *)
Definition family_join (code : option string) : stmt (reply string) :=
  if negb (str_truthy code)
     || negb (String.length (default "" code) =? 6)%nat
  then ret Status400
  else
    family <- select_family (toUpperCase (default "" code)) ;;
    match family with
    | None => ret Status404
    | Some (family_code, _) => ret (Json200 family_code)
    end.

Record push_req : Type := PushReq {
  p_code : option string;
  p_device_id : option string;
  p_babies : option json;
  p_entries : option (list entry)
}.

(** The body of the transaction function of [sync_push]. *)
Definition upsert_entry (code : string) (now : Z) (e : entry) : stmt unit :=
  upsert code (e_id e) e (if opt_truthy (e_deleted e) then 1 else 0)
         (num_or (e_ts e) now).

(** [POST /api/sync/push] *)
Definition sync_push (now : Z) (req : push_req) : stmt (reply nat) :=
  if negb (str_truthy (p_code req)) || negb (str_truthy (p_device_id req))
  then ret Status400
  else
    let code := default "" (p_code req) in
    let device_id := default "" (p_device_id req) in
    family <- select_family code ;;
    match family with
    | None => ret Status404
    | Some _ =>
        replace_sync_data code device_id (or_default (p_babies req) (JArr [])) now ;;;
        match p_entries req with
        | Some items =>
            if (0 <? length items)%nat
            then transaction (for_of items (upsert_entry code now))
            else ret tt
        | None => ret tt
        end ;;;
        update_last_sync now code ;;;
        ret (Json200 (match p_entries req with
                      | Some items => length items
                      | None => 0%nat
                      end))
    end.

Record pull_req : Type := PullReq {
  q_code : option string;
  q_since : option Z
}.

Record device_view : Type := DeviceView {
  dv_device_id : string;
  dv_babies : json;
  dv_updated_at : Z
}.

Record pull_body : Type := PullBody {
  pb_entries : list entry;
  pb_devices : list device_view;
  pb_server_time : Z
}.

(** [e => { const d = JSON.parse(e.data); if (e.deleted) d._deleted = true;
    return d; }] *)
Definition parse_entry (e : entry * Z) : entry :=
  let d := e.1 in
  if negb (e.2 =? 0) then set_deleted d else d.

(** [POST /api/sync/pull] *)
Definition sync_pull (now : Z) (req : pull_req) : stmt (reply pull_body) :=
  if negb (str_truthy (q_code req)) then ret Status400
  else
    let code := default "" (q_code req) in
    family <- select_family code ;;
    match family with
    | None => ret Status404
    | Some _ =>
        let sinceTs := num_or (q_since req) 0 in
        entries <- select_entries_since code sinceTs ;;
        devices <- select_devices code ;;
        let parsed := map parse_entry entries in
        ret (Json200 (PullBody parsed
                        (map (fun d : string * json * Z =>
                                DeviceView d.1.1 d.1.2 d.2) devices)
                        now))
    end.

Record info_body : Type := InfoBody {
  ib_devices : nat;
  ib_entries : nat;
  ib_last_sync : Z
}.

(** [GET /api/family/info/:code] *)
Definition family_info (code : string) : stmt (reply info_body) :=
  family <- select_family code ;;
  match family with
  | None => ret Status404
  | Some (_, row) =>
      devices <- select_devices code ;;
      entryCount <- count_live_entries code ;;
      ret (Json200 (InfoBody (length devices) entryCount (last_sync row)))
  end.

(** [GET /api/health]: [Date.now()], in milliseconds, is the parameter;
    no statement runs. *)
Definition health (now_ms : Z) : stmt (reply Z) := ret (Json200 now_ms).

(** ** The server as a transition system

    One step is one request that touches the database ([/api/health]
    does not). *)

Inductive step : db -> db -> Prop :=
| step_create fuel rnd k now st st' r k' :
    family_create fuel rnd k now st = Some (st', r, k') -> step st st'
| step_join code st :
    step st (serve (family_join code) st).1
| step_push now req st :
    step st (serve (sync_push now req) st).1
| step_pull now req st :
    step st (serve (sync_pull now req) st).1
| step_info code st :
    step st (serve (family_info code) st).1.

Definition reachable (st : db) : Prop := rtc step empty_db st.

(** ** Vocabulary of the properties *)

(** The row that [upsert_entry] binds for an entry of the batch. *)
Definition batch_row (now : Z) (e : entry) : entry_row :=
  EntryRow e (if opt_truthy (e_deleted e) then 1 else 0) (num_or (e_ts e) now).

(** The [entries] table after the upserts of a batch whose entries all
    carry an id, in batch order. *)
Definition batch_entries (code : string) (now : Z) (items : list entry)
    (m : gmap (string * string) entry_row) : gmap (string * string) entry_row :=
  foldl (fun acc e =>
           match e_id e with
           | Some i => <[(code, i) := batch_row now e]> acc
           | None => acc
           end) m items.

(** The entry carries an [id] that the upsert can bind. *)
Definition has_id (e : entry) : Prop := is_Some (e_id e).

(** The rows of [entries] that the pull statement selects. *)
Definition newer_rows (code : string) (since : Z)
    (m : gmap (string * string) entry_row)
  : list ((string * string) * entry_row) :=
  filter (fun kr => kr.1.1 = code ∧ since < en_updated_at kr.2) (map_to_list m).

(** The rows of [sync_data] that the pull statement selects. *)
Definition device_rows (code : string) (m : gmap (string * string) sync_row)
  : list ((string * string) * sync_row) :=
  filter (fun kr => kr.1.1 = code) (map_to_list m).

(** A selected row as the pull answers it. *)
Definition entry_view (kr : (string * string) * entry_row) : entry :=
  parse_entry (en_data kr.2, en_deleted kr.2).

(** A snapshot row as the pull answers it. *)
Definition device_view_of (kr : (string * string) * sync_row) : device_view :=
  DeviceView kr.1.2 (sd_data kr.2) (sd_updated_at kr.2).

(** A symbol of [chars]. *)
Definition in_alphabet (c : ascii) : Prop := c ∈ list_ascii_of_string chars.

(** A code as [genCode] makes them: six symbols of the alphabet. *)
Definition canonical (code : string) : Prop :=
  String.length code = 6%nat ∧ Forall in_alphabet (list_ascii_of_string code).

(** [A]..[Z] and [a]..[z]. *)
Definition is_upper (c : ascii) : bool :=
  ((65 <=? N_of_ascii c) && (N_of_ascii c <=? 90))%N.

Definition is_lower (c : ascii) : bool :=
  ((97 <=? N_of_ascii c) && (N_of_ascii c <=? 122))%N.

(** Two code units that are equal or the two cases of one letter. *)
Definition same_letter (a b : ascii) : bool :=
  Ascii.eqb a b
  || (is_upper a && (N_of_ascii b =? N_of_ascii a + 32)%N)
  || (is_lower a && (N_of_ascii b + 32 =? N_of_ascii a)%N).

(** Two strings that differ at most in the case of their letters. *)
Fixpoint eq_ignore_case (s t : string) : bool :=
  match s, t with
  | EmptyString, EmptyString => true
  | String a s', String b t' => same_letter a b && eq_ignore_case s' t'
  | _, _ => false
  end.

(** Every code of [families] is one that [genCode] can make. *)
Definition codes_canonical (st : db) : Prop :=
  forall code, is_Some (families st !! code) -> canonical code.

(** ** The scenario of the interface description *)

(** The oracle draws the indices of [A B 2 3 C D] in [chars]. *)
Definition draws_AB23CD (k : nat) : nat := nth k [0; 1; 24; 25; 2; 3]%nat 0%nat.

(** The database after the first [family_create], at time 1000. *)
Definition family_AB23CD : db :=
  Db (<["AB23CD" := FamilyRow 1000 1000]> ∅) ∅ ∅.

(** [{id: "e1", _ts: 100, note: "x"}] *)
Definition entry_e1 : entry := Entry (Some "e1") None (Some 100) [("note", JStr "x")].

(** [{id: "e1", _ts: 200, _deleted: true}] *)
Definition entry_e1_deleted : entry :=
  Entry (Some "e1") (Some (JBool true)) (Some 200) [].

(** [{note: "y"}]: an entry that carries no id. *)
Definition entry_no_id : entry := Entry None None None [("note", JStr "y")].

(** [{id: "e2", _ts: 0}] *)
Definition entry_ts_zero : entry := Entry (Some "e2") None (Some 0) [].

(** [{id: "e4", _deleted: 1, _ts: 300}]: deleted, with a marker that is
    truthy but not [true]. *)
Definition entry_e4_marked : entry :=
  Entry (Some "e4") (Some (JNum 1)) (Some 300) [].

(** [{id: "e3", _ts: -5}] *)
Definition entry_ts_negative : entry := Entry (Some "e3") None (Some (-5)) [].

(** Device [d1] has pushed [entry_e1]. *)
Definition family_with_entry : db :=
  (serve (sync_push 500
            (PushReq (Some "AB23CD") (Some "d1") None (Some [entry_e1])))
         family_AB23CD).1.

(** [{name: "Mia"}] pushed earlier by device [d1]. *)
Definition family_with_snapshot : db :=
  (serve (sync_push 400
            (PushReq (Some "AB23CD") (Some "d1")
                     (Some (JArr [JObj [("name", JStr "Mia")]])) None))
         family_AB23CD).1.

(** ** Vocabulary of the further properties *)

(** Every snapshot row and every entry row belongs to a family of the
    [families] table. *)
Definition rows_have_family (st : db) : Prop :=
  (forall k, is_Some (sync_data st !! k) -> is_Some (families st !! k.1))
  ∧ (forall k, is_Some (entries st !! k) -> is_Some (families st !! k.1)).

(** An entry row is keyed by the [id] of its payload and its [deleted]
    column is the JavaScript truth value of the payload's [_deleted]. *)
Definition entry_rows_consistent (st : db) : Prop :=
  forall k row,
    entries st !! k = Some row ->
    e_id (en_data row) = Some k.2
    ∧ en_deleted row = (if opt_truthy (e_deleted (en_data row)) then 1 else 0).

(** Two answers of a pull that agree up to the order of the listed
    entries and devices. *)
Definition same_pull (r1 r2 : reply pull_body) : Prop :=
  match r1, r2 with
  | Json200 b1, Json200 b2 =>
      pb_entries b1 ≡ₚ pb_entries b2
      ∧ pb_devices b1 ≡ₚ pb_devices b2
      ∧ pb_server_time b1 = pb_server_time b2
  | Status400, Status400 | Status404, Status404 | Status500, Status500 => True
  | _, _ => False
  end.

(** The rows of [entries] that the info statement counts. *)
Definition live_rows (code : string) (m : gmap (string * string) entry_row)
  : list ((string * string) * entry_row) :=
  filter (fun kr => kr.1.1 = code ∧ en_deleted kr.2 = 0) (map_to_list m).

(** Device [d1] has pushed [entry_e1], device [d2] then pushes the
    tombstone of the same entry. *)
Definition family_with_tombstone : db :=
  (serve (sync_push 700
            (PushReq (Some "AB23CD") (Some "d2") None (Some [entry_e1_deleted])))
         family_with_entry).1.

(** A second family, [EF45GH], next to [AB23CD] and its entry. *)
Definition two_families : db :=
  Db (<["EF45GH" := FamilyRow 1200 1200]> (families family_with_entry))
     (sync_data family_with_entry) (entries family_with_entry).

(** * Properties *)

(** ** Statements and the entry batch *)

Lemma batch_entries_cons code now e rest m :
  batch_entries code now (e :: rest) m =
  batch_entries code now rest
    (match e_id e with
     | Some i => <[(code, i) := batch_row now e]> m
     | None => m
     end).
Proof. reflexivity. Qed.

Lemma db_eta st : Db (families st) (sync_data st) (entries st) = st.
Proof. by destruct st. Qed.

Lemma upsert_entry_some code now e i st :
  e_id e = Some i ->
  upsert_entry code now e st =
  (Db (families st) (sync_data st) (<[(code, i) := batch_row now e]> (entries st)),
   Ok tt).
Proof. intros Hi. unfold upsert_entry, upsert. by rewrite Hi. Qed.

Lemma upsert_entry_none code now e st :
  e_id e = None -> upsert_entry code now e st = (st, Throw SqliteConstraint).
Proof. intros Hi. unfold upsert_entry, upsert. by rewrite Hi. Qed.

Lemma for_of_upsert_ok code now items st :
  Forall has_id items ->
  for_of items (upsert_entry code now) st =
  (Db (families st) (sync_data st) (batch_entries code now items (entries st)),
   Ok tt).
Proof.
  intros Hall. revert st.
  induction Hall as [|e rest [i Hi] _ IH]; intros st.
  - cbn [for_of]. unfold ret. by rewrite db_eta.
  - cbn [for_of]. unfold bind. rewrite (upsert_entry_some _ _ _ i) by done.
    rewrite IH. cbn [families sync_data entries].
    by rewrite batch_entries_cons, Hi.
Qed.

Lemma for_of_upsert_throw code now items st :
  ¬ Forall has_id items ->
  exists st', for_of items (upsert_entry code now) st = (st', Throw SqliteConstraint).
Proof.
  revert st. induction items as [|e rest IH]; intros st Hnot.
  - destruct Hnot. constructor.
  - simpl. unfold bind. destruct (e_id e) as [i|] eqn:Hi.
    + rewrite (upsert_entry_some _ _ _ i) by done.
      apply IH. intros Hrest. apply Hnot. constructor; [by exists i | done].
    + rewrite upsert_entry_none by done. by eexists.
Qed.

Lemma transaction_batch code now items st :
  transaction (for_of items (upsert_entry code now)) st =
  if decide (Forall has_id items)
  then (Db (families st) (sync_data st)
           (batch_entries code now items (entries st)), Ok tt)
  else (st, Throw SqliteConstraint).
Proof.
  unfold transaction. destruct (decide (Forall has_id items)) as [Hall|Hnot].
  - by rewrite for_of_upsert_ok.
  - destruct (for_of_upsert_throw code now items st Hnot) as [st' ->]. done.
Qed.

Lemma batch_entries_app code now l1 l2 m :
  batch_entries code now (l1 ++ l2) m =
  batch_entries code now l2 (batch_entries code now l1 m).
Proof. unfold batch_entries. apply foldl_app. Qed.

Lemma batch_entries_other code now items m k :
  (forall e, e ∈ items -> e_id e ≠ Some k.2) ->
  batch_entries code now items m !! k = m !! k.
Proof.
  revert m. induction items as [|e rest IH]; intros m Hno; [done|].
  rewrite batch_entries_cons.
  rewrite IH; [|intros e' He'; apply Hno; by right].
  destruct (e_id e) as [i|] eqn:Hi; [|done].
  apply lookup_insert_ne. intros <-. simpl in Hno.
  apply (Hno e); [by left | done].
Qed.

Lemma batch_entries_foreign code now items m k :
  k.1 ≠ code -> batch_entries code now items m !! k = m !! k.
Proof.
  revert m. induction items as [|e rest IH]; intros m Hk; [done|].
  rewrite batch_entries_cons.
  rewrite IH by done.
  destruct (e_id e) as [i|]; [|done].
  apply lookup_insert_ne. by intros <-.
Qed.

Lemma batch_entries_last code now l1 e l2 i m :
  e_id e = Some i ->
  (forall e', e' ∈ l2 -> e_id e' ≠ Some i) ->
  batch_entries code now (l1 ++ e :: l2) m !! (code, i) = Some (batch_row now e).
Proof.
  intros Hi Hlater. rewrite batch_entries_app, batch_entries_cons, Hi.
  rewrite batch_entries_other by done. apply lookup_insert_eq.
Qed.

Lemma batch_entries_mono code now items m k :
  is_Some (m !! k) -> is_Some (batch_entries code now items m !! k).
Proof.
  revert m. induction items as [|e rest IH]; intros m Hk; [done|].
  rewrite batch_entries_cons.
  apply IH. destruct (e_id e) as [i|]; [|done].
  rewrite lookup_insert. case_decide; [by eexists | done].
Qed.

(** ** [sync_push] in one equation

    What the handler leaves in the database and what it answers, by
    cases on the guards it goes through. *)

Lemma serve_sync_push now req st :
  serve (sync_push now req) st =
  if negb (str_truthy (p_code req)) || negb (str_truthy (p_device_id req))
  then (st, Status400)
  else
    let code := default "" (p_code req) in
    let device_id := default "" (p_device_id req) in
    match families st !! code with
    | None => (st, Status404)
    | Some _ =>
        let snap := <[(code, device_id) :=
                        SyncRow (or_default (p_babies req) (JArr [])) now]>
                      (sync_data st) in
        let items := default [] (p_entries req) in
        if decide (Forall has_id items)
        then (Db (alter (touch_family now) code (families st)) snap
                 (batch_entries code now items (entries st)),
              Json200 (length items))
        else (Db (families st) snap (entries st), Status500)
    end.
Proof.
  unfold sync_push.
  destruct (negb (str_truthy (p_code req)) || negb (str_truthy (p_device_id req)));
    [done|].
  cbv zeta. unfold serve, bind at 1, select_family.
  destruct (families st !! default "" (p_code req)) as [row|] eqn:Hfam; [|done].
  unfold bind at 1, replace_sync_data. unfold bind at 1.
  destruct (p_entries req) as [items|]; unfold default at 5; cbn [from_option];
    unfold id.
  - destruct items as [|e rest].
    + cbn [length Nat.ltb Nat.leb]. unfold ret at 1. cbn [families sync_data entries].
      rewrite decide_True by constructor. reflexivity.
    + cbn [length Nat.ltb Nat.leb]. rewrite transaction_batch.
      cbn [families sync_data entries].
      destruct (decide (Forall has_id (e :: rest))); reflexivity.
  - unfold ret at 1. rewrite decide_True by constructor. reflexivity.
Qed.

(** ** [sync_pull] in one equation *)

Lemma omap_decide_filter {A B} (P : A -> Prop) `{!forall x, Decision (P x)}
    (f : A -> B) (l : list A) :
  omap (fun x => if decide (P x) then Some (f x) else None) l =
  map f (filter P l).
Proof.
  induction l as [|x l IH]; [done|].
  cbn [omap list_omap]. rewrite filter_cons.
  destruct (decide (P x)); cbn [map]; by rewrite <- IH.
Qed.

Lemma serve_sync_pull now req st :
  serve (sync_pull now req) st =
  if negb (str_truthy (q_code req)) then (st, Status400)
  else
    let code := default "" (q_code req) in
    match families st !! code with
    | None => (st, Status404)
    | Some _ =>
        (st, Json200 (PullBody
                        (map entry_view
                             (newer_rows code (num_or (q_since req) 0) (entries st)))
                        (map device_view_of (device_rows code (sync_data st)))
                        now))
    end.
Proof.
  unfold sync_pull. destruct (negb (str_truthy (q_code req))); [done|].
  cbv zeta. unfold serve, bind at 1, select_family.
  destruct (families st !! default "" (q_code req)) as [row|]; [|done].
  unfold bind, select_entries_since, select_devices, ret.
  rewrite !omap_decide_filter. unfold newer_rows, device_rows.
  by rewrite !map_map.
Qed.

Lemma elem_of_newer_rows code since m k row :
  (k, row) ∈ newer_rows code since m <->
  m !! k = Some row ∧ k.1 = code ∧ since < en_updated_at row.
Proof.
  unfold newer_rows. rewrite list_elem_of_filter, elem_of_map_to_list.
  simpl. tauto.
Qed.

Lemma NoDup_newer_rows code since m : NoDup (newer_rows code since m).*1.
Proof.
  apply (sublist_NoDup _ (map_to_list m).*1); [apply NoDup_fst_map_to_list|].
  unfold newer_rows. apply fmap_sublist, sublist_filter.
Qed.

Lemma num_or_zero (since : option Z) :
  num_or since 0 = match since with Some s => s | None => 0 end.
Proof.
  destruct since as [s|]; [|done]. simpl.
  destruct (Z.eqb_spec s 0); congruence.
Qed.

Lemma str_truthy_Some s : s ≠ "" -> str_truthy (Some s) = true.
Proof.
  intros Hs. simpl. destruct (String.eqb_spec s ""); [done|reflexivity].
Qed.

(** ** Family codes *)

Lemma str_length_app (s t : string) :
  String.length (s ++ t) = (String.length s + String.length t)%nat.
Proof. induction s as [|c s IH]; simpl; [done | by rewrite IH]. Qed.

Lemma str_chars_app (s t : string) :
  list_ascii_of_string (s ++ t) =
  (list_ascii_of_string s ++ list_ascii_of_string t)%list.
Proof. induction s as [|c s IH]; simpl; [done | by rewrite IH]. Qed.

Lemma chars_get (i : nat) :
  (i < 32)%nat -> exists c, String.get i chars = Some c ∧ in_alphabet c.
Proof.
  intros Hi.
  do 32 (destruct i as [|i];
         [eexists; split;
            [reflexivity
            | unfold in_alphabet; apply (bool_decide_unpack _); vm_compute; exact I] |]).
  lia.
Qed.

Lemma index_str_chars (draw : nat) :
  exists c, index_str chars (randomInt (String.length chars) draw) = String c ""
            ∧ in_alphabet c.
Proof.
  destruct (chars_get (randomInt (String.length chars) draw)) as (c & Hget & Hc).
  - unfold randomInt. change (String.length chars) with 32%nat.
    apply Nat.mod_upper_bound. lia.
  - exists c. unfold index_str. by rewrite Hget.
Qed.

Lemma fill_code_spec n rnd k code :
  (fill_code n rnd k code).2 = (k + n)%nat
  ∧ String.length (fill_code n rnd k code).1 = (String.length code + n)%nat
  ∧ (Forall in_alphabet (list_ascii_of_string code) ->
     Forall in_alphabet (list_ascii_of_string (fill_code n rnd k code).1)).
Proof.
  revert k code. induction n as [|n IH]; intros k code; cbn [fill_code].
  - cbn [fst snd]. repeat split; [lia | lia | done].
  - destruct (index_str_chars (rnd k)) as (c & -> & Hc).
    destruct (IH (S k) (code ++ String c "")) as (Hk & Hlen & Hall).
    rewrite Hk, Hlen, str_length_app. cbn [String.length].
    repeat split; [lia | lia |].
    intros Hcode. apply Hall. rewrite str_chars_app.
    apply Forall_app. split; [done|].
    cbn [list_ascii_of_string]. constructor; [done | constructor].
Qed.

Lemma fill_code_canonical rnd k : canonical (fill_code 6 rnd k "").1.
Proof.
  destruct (fill_code_spec 6 rnd k "") as (_ & Hlen & Hall).
  split; [by rewrite Hlen | apply Hall; constructor].
Qed.

Lemma genCode_spec fuel rnd k st code k' :
  genCode fuel rnd k st = Some (code, k') ->
  canonical code ∧ families st !! code = None.
Proof.
  revert k. induction fuel as [|fuel IH]; intros k; cbn [genCode]; [done|].
  pose proof (fill_code_canonical rnd k) as Hcan.
  destruct (fill_code 6 rnd k "") as [c kk]. cbn [fst] in Hcan.
  destruct (families st !! c) eqn:Hc.
  - apply IH.
  - intros [= <- <-]. done.
Qed.

(** The loop ends as soon as one attempt draws a code that is free. *)
Lemma genCode_returns rnd st (j : nat) :
  forall k fuel,
    families st !! (fill_code 6 rnd (k + 6 * j) "").1 = None ->
    (j < fuel)%nat ->
    exists res, genCode fuel rnd k st = Some res.
Proof.
  induction j as [|j IH]; intros k fuel Hfree Hfuel;
    (destruct fuel as [|fuel]; [lia|]); cbn [genCode].
  - replace (k + 6 * 0)%nat with k in Hfree by lia.
    destruct (fill_code 6 rnd k "") as [c kk]. cbn [fst] in Hfree.
    rewrite Hfree. by eexists.
  - pose proof (fill_code_spec 6 rnd k "") as (Hk & _).
    destruct (fill_code 6 rnd k "") as [c kk]. cbn [snd] in Hk. subst kk.
    destruct (families st !! c); [|by eexists].
    apply IH; [|lia].
    replace (k + 6 + 6 * j)%nat with (k + 6 * S j)%nat by lia. done.
Qed.

(** ** Letter case *)

Lemma in_alphabet_cases (P : ascii -> Prop) :
  Forall P (list_ascii_of_string chars) -> forall c, in_alphabet c -> P c.
Proof. intros Hall c Hc. by eapply Forall_forall in Hall. Qed.

Lemma upper_char_alphabet c : in_alphabet c -> upper_char c = c.
Proof.
  revert c. apply in_alphabet_cases. cbn [chars list_ascii_of_string].
  repeat constructor.
Qed.

Lemma alphabet_not_lower c : in_alphabet c -> is_lower c = false.
Proof.
  revert c. apply in_alphabet_cases. cbn [chars list_ascii_of_string].
  repeat constructor.
Qed.

Lemma upper_char_same_letter a b :
  in_alphabet b -> same_letter a b = true -> upper_char a = b.
Proof.
  intros Hb. unfold same_letter. rewrite !orb_true_iff, !andb_true_iff.
  intros [[Heq | [Hup Hn]] | [Hlow Hn]].
  - apply Ascii.eqb_eq in Heq. subst a. by apply upper_char_alphabet.
  - apply alphabet_not_lower in Hb. unfold is_upper in Hup. unfold is_lower in Hb.
    apply N.eqb_eq in Hn. apply andb_true_iff in Hup as [H65 H90].
    apply N.leb_le in H65, H90. apply andb_false_iff in Hb as [Hb|Hb];
      apply N.leb_gt in Hb; lia.
  - unfold upper_char. unfold is_lower in Hlow. cbv zeta. rewrite Hlow.
    apply N.eqb_eq in Hn. replace (N_of_ascii a - 32)%N with (N_of_ascii b) by lia.
    apply ascii_N_embedding.
Qed.

Lemma toUpperCase_ignore_case c : forall stored,
  Forall in_alphabet (list_ascii_of_string stored) ->
  eq_ignore_case c stored = true ->
  toUpperCase c = stored ∧ String.length c = String.length stored.
Proof.
  induction c as [|a c IH]; intros [|b stored] Hall Heq; try done.
  cbn [eq_ignore_case] in Heq. apply andb_true_iff in Heq as [Hab Hrest].
  cbn [list_ascii_of_string] in Hall. apply Forall_cons in Hall as [Hb Hall].
  destruct (IH stored Hall Hrest) as [Hup Hlen].
  cbn [toUpperCase String.length].
  by rewrite (upper_char_same_letter a b), Hup, Hlen.
Qed.

Lemma toUpperCase_canonical code :
  Forall in_alphabet (list_ascii_of_string code) -> toUpperCase code = code.
Proof.
  induction code as [|c code IH]; [done|].
  cbn [list_ascii_of_string toUpperCase]. intros [Hc Hall]%Forall_cons.
  by rewrite upper_char_alphabet, IH.
Qed.

(** ** The other handlers *)

Lemma serve_family_join code st :
  serve (family_join code) st =
  if negb (str_truthy code) || negb (String.length (default "" code) =? 6)%nat
  then (st, Status400)
  else
    match families st !! toUpperCase (default "" code) with
    | None => (st, Status404)
    | Some _ => (st, Json200 (toUpperCase (default "" code)))
    end.
Proof.
  unfold family_join.
  destruct (negb (str_truthy code) || negb (String.length (default "" code) =? 6)%nat);
    [done|].
  unfold serve, bind, select_family.
  by destruct (families st !! toUpperCase (default "" code)).
Qed.

Lemma serve_family_join_state code st : (serve (family_join code) st).1 = st.
Proof.
  rewrite serve_family_join. destruct (negb _ || negb _); [done|].
  by destruct (families st !! _).
Qed.

Lemma serve_sync_pull_state now req st : (serve (sync_pull now req) st).1 = st.
Proof.
  rewrite serve_sync_pull. destruct (negb _); [done|]. cbv zeta.
  by destruct (families st !! _).
Qed.

Lemma serve_family_info_state code st : (serve (family_info code) st).1 = st.
Proof.
  unfold family_info, serve, bind at 1, select_family.
  by destruct (families st !! code).
Qed.

Lemma family_create_spec fuel rnd k now st st' r k' :
  family_create fuel rnd k now st = Some (st', r, k') ->
  exists code,
    genCode fuel rnd k st = Some (code, k')
    ∧ r = Json200 code
    ∧ st' = Db (<[code := FamilyRow now now]> (families st))
               (sync_data st) (entries st).
Proof.
  unfold family_create.
  destruct (genCode fuel rnd k st) as [[code kk]|] eqn:Hgen; [|done].
  destruct (genCode_spec _ _ _ _ _ _ Hgen) as [_ Hfree].
  unfold serve, bind, insert_family, ret. rewrite Hfree.
  intros [= <- <- <-]. by exists code.
Qed.

(** ** Invariants of the reachable databases *)

Lemma step_families st st' :
  step st st' ->
  (forall code, is_Some (families st !! code) -> is_Some (families st' !! code))
  ∧ (forall code, is_Some (families st' !! code) ->
       is_Some (families st !! code) ∨ canonical code).
Proof.
  destruct 1 as [fuel rnd k now st st' r k' Hcreate|code st|now req st|now req st|code st].
  - apply family_create_spec in Hcreate as (code & Hgen & _ & ->).
    apply genCode_spec in Hgen as [Hcan _]. cbn [families].
    split; intros c; rewrite lookup_insert; case_decide; subst; eauto.
  - rewrite serve_family_join_state. eauto.
  - rewrite serve_sync_push.
    destruct (negb _ || negb _); [eauto|]. cbv zeta.
    destruct (families st !! default "" (p_code req)); [|eauto].
    destruct (decide (Forall has_id (default [] (p_entries req))));
      cbn [fst families]; [|eauto].
    split; intros c; rewrite lookup_alter; case_decide; subst;
      rewrite ?fmap_is_Some; eauto.
  - rewrite serve_sync_pull_state. eauto.
  - rewrite serve_family_info_state. eauto.
Qed.

Lemma step_entries st st' k :
  step st st' -> is_Some (entries st !! k) -> is_Some (entries st' !! k).
Proof.
  destruct 1 as [fuel rnd k0 now st st' r k' Hcreate|code st|now req st|now req st|code st].
  - by apply family_create_spec in Hcreate as (code & _ & _ & ->).
  - by rewrite serve_family_join_state.
  - rewrite serve_sync_push.
    destruct (negb _ || negb _); [done|]. cbv zeta.
    destruct (families st !! default "" (p_code req)); [|done].
    destruct (decide (Forall has_id (default [] (p_entries req))));
      cbn [fst entries]; [|done].
    apply batch_entries_mono.
  - by rewrite serve_sync_pull_state.
  - by rewrite serve_family_info_state.
Qed.

Lemma steps_families st st' code :
  rtc step st st' ->
  is_Some (families st !! code) -> is_Some (families st' !! code).
Proof.
  induction 1 as [|st mid st' Hstep _ IH]; [done|].
  intros Hin. apply IH. by apply (step_families _ _ Hstep).
Qed.

Lemma steps_entries st st' k :
  rtc step st st' ->
  is_Some (entries st !! k) -> is_Some (entries st' !! k).
Proof.
  induction 1 as [|st mid st' Hstep _ IH]; [done|].
  intros Hin. apply IH. by apply (step_entries _ _ _ Hstep).
Qed.

Lemma steps_codes_canonical st st' :
  rtc step st st' -> codes_canonical st -> codes_canonical st'.
Proof.
  induction 1 as [|st mid st' Hstep _ IH]; [done|].
  intros Hcan. apply IH. intros code Hcode.
  destruct (proj2 (step_families _ _ Hstep) code Hcode); [by apply Hcan | done].
Qed.

Lemma reachable_codes_canonical st : reachable st -> codes_canonical st.
Proof.
  intros Hreach. apply (steps_codes_canonical _ _ Hreach).
  intros code [row Hrow]. cbn in Hrow. by rewrite lookup_empty in Hrow.
Qed.

(** ** Inversion of the answers of [sync_push] *)

Lemma str_truthy_inv s :
  str_truthy s = true -> exists x, s = Some x ∧ x ≠ "".
Proof.
  destruct s as [x|]; [|done]. simpl. intros Hx. exists x. split; [done|].
  intros ->. done.
Qed.

Lemma push_guard_inv req :
  negb (str_truthy (p_code req)) || negb (str_truthy (p_device_id req)) = false ->
  exists code device_id,
    p_code req = Some code ∧ code ≠ "" ∧
    p_device_id req = Some device_id ∧ device_id ≠ "".
Proof.
  intros [Hc Hd]%orb_false_iff.
  apply negb_false_iff, str_truthy_inv in Hc as (code & ? & ?).
  apply negb_false_iff, str_truthy_inv in Hd as (dev & ? & ?).
  by exists code, dev.
Qed.

Lemma sync_push_200_inv now req st st' n :
  serve (sync_push now req) st = (st', Json200 n) ->
  exists code device_id,
    p_code req = Some code ∧ code ≠ "" ∧
    p_device_id req = Some device_id ∧ device_id ≠ "" ∧
    is_Some (families st !! code) ∧
    Forall has_id (default [] (p_entries req)) ∧
    n = length (default [] (p_entries req)) ∧
    st' = Db (alter (touch_family now) code (families st))
             (<[(code, device_id) :=
                  SyncRow (or_default (p_babies req) (JArr [])) now]> (sync_data st))
             (batch_entries code now (default [] (p_entries req)) (entries st)).
Proof.
  rewrite serve_sync_push.
  destruct (negb _ || negb _) eqn:Hguard; [done|]. cbv zeta.
  apply push_guard_inv in Hguard as (code & dev & -> & ? & -> & ?).
  cbn [default from_option id].
  destruct (families st !! code) eqn:Hfam; [|done].
  destruct (decide (Forall has_id _)); [|done].
  intros [= <- <-]. by exists code, dev.
Qed.

Lemma sync_push_500_inv now req st st' :
  serve (sync_push now req) st = (st', Status500) ->
  exists code device_id,
    p_code req = Some code ∧ code ≠ "" ∧
    p_device_id req = Some device_id ∧ device_id ≠ "" ∧
    is_Some (families st !! code) ∧
    ¬ Forall has_id (default [] (p_entries req)) ∧
    st' = Db (families st)
             (<[(code, device_id) :=
                  SyncRow (or_default (p_babies req) (JArr [])) now]> (sync_data st))
             (entries st).
Proof.
  rewrite serve_sync_push.
  destruct (negb _ || negb _) eqn:Hguard; [done|]. cbv zeta.
  apply push_guard_inv in Hguard as (code & dev & -> & ? & -> & ?).
  cbn [default from_option id].
  destruct (families st !! code) eqn:Hfam; [|done].
  destruct (decide (Forall has_id _)); [done|].
  intros [= <-]. by exists code, dev.
Qed.

Lemma sync_push_entries_unchanged now req st st' r :
  serve (sync_push now req) st = (st', r) ->
  (forall n, r ≠ Json200 n) -> entries st' = entries st.
Proof.
  rewrite serve_sync_push.
  destruct (negb _ || negb _); [by intros [= <- <-]|]. cbv zeta.
  destruct (families st !! _); [|by intros [= <- <-]].
  destruct (decide (Forall has_id _)); intros [= <- <-]; [|done].
  intros Hr. by destruct (Hr (length (default [] (p_entries req)))).
Qed.

(** ** The scenario is reachable *)

Lemma create_AB23CD :
  family_create 1 draws_AB23CD 0 1000 empty_db
  = Some (family_AB23CD, Json200 "AB23CD", 6%nat).
Proof. reflexivity. Qed.

Lemma reachable_AB23CD : reachable family_AB23CD.
Proof.
  eapply rtc_l; [|apply rtc_refl].
  eapply step_create. exact create_AB23CD.
Defined.

Lemma reachable_code_nonempty st code :
  reachable st -> is_Some (families st !! code) -> code ≠ "".
Proof.
  intros Hreach Hcode.
  destruct (reachable_codes_canonical st Hreach code Hcode) as [Hlen _].
  by intros ->.
Qed.

(** The scenario runs as the interface description tells it: create,
    join in lower case, push [e1], pull from 0, push the tombstone of [e1],
    pull from 100. *)
Example scenario_join :
  (serve (family_join (Some "ab23cd")) family_AB23CD).2 = Json200 "AB23CD".
Proof. reflexivity. Qed.

Example scenario_push :
  (serve (sync_push 500
            (PushReq (Some "AB23CD") (Some "d1") None (Some [entry_e1])))
         family_AB23CD).2 = Json200 1%nat.
Proof. reflexivity. Qed.

Example scenario_pull :
  pb_entries <$>
    (match (serve (sync_pull 600 (PullReq (Some "AB23CD") (Some 0)))
                  family_with_entry).2 with
     | Json200 body => Some body
     | _ => None
     end) = Some [entry_e1].
Proof. reflexivity. Qed.

Example scenario_tombstone :
  let st2 := (serve (sync_push 700
                       (PushReq (Some "AB23CD") (Some "d1") None
                                (Some [entry_e1_deleted])))
                    family_with_entry).1 in
  pb_entries <$>
    (match (serve (sync_pull 800 (PullReq (Some "AB23CD") (Some 100))) st2).2 with
     | Json200 body => Some body
     | _ => None
     end) = Some [entry_e1_deleted].
Proof. reflexivity. Qed.

(** * The claims *)

(** ** C1: atomicity of a push *)

(** C1, as stated, fails.  The family [AB23CD] exists and device [d2]
    pushes the batch [[{id: "e1", ...}, {note: "y"}]].  The second upsert
    violates [entry_id NOT NULL], the transaction is rolled back and the
    request is answered with status 500; the snapshot row of [d2], which was
    written by its own statement before the transaction, is in the
    database all the same. *)
Lemma push_failed_batch_keeps_snapshot :
  let req := PushReq (Some "AB23CD") (Some "d2") None
                     (Some [entry_e1; entry_no_id]) in
  let out := serve (sync_push 500 req) family_AB23CD in
  out.2 = Status500
  ∧ (upsert_entry "AB23CD" 500 entry_no_id family_AB23CD).2 = Throw SqliteConstraint
  ∧ entries out.1 !! ("AB23CD", "e1") = None
  ∧ sync_data family_AB23CD !! ("AB23CD", "d2") = None
  ∧ sync_data out.1 !! ("AB23CD", "d2") = Some (SyncRow (JArr []) 500).
Proof. vm_compute. repeat split. Qed.

(** C1, amended: the upserts of the entry batch are one transaction.
    Unless the push is answered with 200 no entry row of it is committed,
    and when it is answered with 200 every entry of the batch has its row.
    A push that fails inside the batch (status 500) leaves [entries] and
    [families] as they were and keeps the snapshot row that it wrote before
    the transaction. *)
Theorem push_entry_batch_atomic now req st st' r :
  serve (sync_push now req) st = (st', r) ->
  ((forall n, r ≠ Json200 n) -> entries st' = entries st)
  ∧ (forall n, r = Json200 n ->
       exists code, p_code req = Some code ∧
         forall items e, p_entries req = Some items -> e ∈ items ->
           exists i, e_id e = Some i ∧ is_Some (entries st' !! (code, i)))
  ∧ (r = Status500 ->
       entries st' = entries st ∧ families st' = families st ∧
       exists code device_id,
         p_code req = Some code ∧ p_device_id req = Some device_id ∧
         sync_data st' =
           <[(code, device_id) :=
               SyncRow (or_default (p_babies req) (JArr [])) now]> (sync_data st)).
Proof.
  intros Hserve. split; [|split].
  - by apply (sync_push_entries_unchanged now req).
  - intros n ->.
    apply sync_push_200_inv in Hserve
      as (code & dev & Hcode & _ & _ & _ & _ & Hall & _ & ->).
    exists code. split; [done|]. intros items e Hitems He.
    rewrite Hitems in Hall. cbn [default from_option id] in Hall.
    destruct (proj1 (Forall_forall _ _) Hall e He) as [i Hi].
    exists i. split; [done|]. cbn [entries]. rewrite Hitems.
    cbn [default from_option id].
    apply list_elem_of_split in He as (l1 & l2 & ->).
    rewrite batch_entries_app, batch_entries_cons, Hi.
    apply batch_entries_mono. rewrite lookup_insert_eq. by eexists.
  - intros ->.
    apply sync_push_500_inv in Hserve
      as (code & dev & Hcode & _ & Hdev & _ & _ & _ & ->).
    cbn [entries families sync_data]. repeat split. by exists code, dev.
Qed.

Lemma push_entry_batch_atomic_witness :
  let req := PushReq (Some "AB23CD") (Some "d2") None
                     (Some [entry_e1; entry_no_id]) in
  let st' := Db (families family_AB23CD)
                (<[("AB23CD", "d2") := SyncRow (JArr []) 500]> ∅) ∅ in
  serve (sync_push 500 req) family_AB23CD = (st', Status500)
  ∧ entries st' = entries family_AB23CD.
Proof.
  intros req st'.
  assert (Hserve : serve (sync_push 500 req) family_AB23CD = (st', Status500))
    by reflexivity.
  split; [exact Hserve|].
  exact (proj1 (proj2 (proj2 (push_entry_batch_atomic 500 req family_AB23CD
                                 st' Status500 Hserve)) eq_refl)).
Defined.

(** ** C2: the timestamp of a pushed entry *)

(** C2, as stated, fails.  The entry [{id: "e2", _ts: 0}] supplies its
    timestamp, yet [e._ts || now] takes the falsy [0] for a missing
    value: the row is stored with the receipt time 500. *)
Lemma push_zero_ts_stores_receipt_time :
  let req := PushReq (Some "AB23CD") (Some "d1") None (Some [entry_ts_zero]) in
  let out := serve (sync_push 500 req) family_AB23CD in
  out.2 = Json200 1%nat
  ∧ e_ts entry_ts_zero = Some 0
  ∧ entries out.1 !! ("AB23CD", "e2") = Some (EntryRow entry_ts_zero 0 500).
Proof. vm_compute. repeat split. Qed.

(** C2, amended: after a push that was answered with 200, the row of
    every entry of the batch (the last one with its id, when the batch
    repeats an id) holds the entry's own [_ts] when that field is supplied
    and is not 0, and the server-receipt time when the field is missing or
    is 0. *)
Theorem pushed_entry_updated_at now req st st' n code l1 e l2 :
  serve (sync_push now req) st = (st', Json200 n) ->
  p_code req = Some code ->
  p_entries req = Some (l1 ++ e :: l2)%list ->
  (forall e', e' ∈ l2 -> e_id e' ≠ e_id e) ->
  exists i row,
    e_id e = Some i ∧ entries st' !! (code, i) = Some row ∧ en_data row = e
    ∧ (forall t, e_ts e = Some t -> t ≠ 0 -> en_updated_at row = t)
    ∧ (e_ts e = None ∨ e_ts e = Some 0 -> en_updated_at row = now).
Proof.
  intros Hserve Hcode Hitems Hlast.
  apply sync_push_200_inv in Hserve
    as (code' & dev & Hcode' & _ & _ & _ & _ & Hall & _ & ->).
  assert (code' = code) as -> by congruence.
  rewrite Hitems in Hall |- *. cbn [default from_option id] in Hall |- *.
  apply Forall_app in Hall as [_ [[i Hi] _]%Forall_cons].
  exists i, (batch_row now e). cbn [entries].
  split; [done|]. split.
  { apply batch_entries_last; [done|]. intros e' He'. rewrite <- Hi. by apply Hlast. }
  split; [done|]. unfold batch_row, num_or. cbn [en_updated_at]. split.
  - intros t -> Ht. by destruct (Z.eqb_spec t 0).
  - by intros [-> | ->].
Qed.

Lemma pushed_entry_updated_at_witness :
  exists row,
    entries (serve (sync_push 500
               (PushReq (Some "AB23CD") (Some "d1") None (Some [entry_e1])))
               family_AB23CD).1 !! ("AB23CD", "e1") = Some row
    ∧ en_updated_at row = 100.
Proof.
  destruct (pushed_entry_updated_at 500
              (PushReq (Some "AB23CD") (Some "d1") None (Some [entry_e1]))
              family_AB23CD
              (serve (sync_push 500
                 (PushReq (Some "AB23CD") (Some "d1") None (Some [entry_e1])))
                 family_AB23CD).1
              1%nat "AB23CD" [] entry_e1 [])
    as (i & row & Hi & Hrow & _ & Hts & _).
  - reflexivity.
  - reflexivity.
  - reflexivity.
  - intros e' He'. by apply elem_of_nil in He'.
  - exists row. injection Hi as <-. split; [exact Hrow|].
    apply Hts; [reflexivity | lia].
Defined.

(** ** C3: what a pull returns *)

(** C3, as stated, fails in its last part.  The entry [{id: "e3", _ts: -5}]
    is pushed and stored; the pull with [since = 0] selects
    [updated_at > 0] and does not return it. *)
Lemma pull_since_zero_misses_entry :
  let push := PushReq (Some "AB23CD") (Some "d1") None (Some [entry_ts_negative]) in
  let st1 := (serve (sync_push 500 push) family_AB23CD).1 in
  (serve (sync_push 500 push) family_AB23CD).2 = Json200 1%nat
  ∧ entries st1 !! ("AB23CD", "e3") = Some (EntryRow entry_ts_negative 0 (-5))
  ∧ (serve (sync_pull 600 (PullReq (Some "AB23CD") (Some 0))) st1).2
    = Json200 (PullBody [] [DeviceView "d1" (JArr []) 500] 600).
Proof. vm_compute. repeat split. Qed.

(** C3, amended: for every family of the store and every [since], the
    pull returns the rows of [entries] of that family whose [updated_at]
    is strictly greater than the watermark ([since], or 0 when it is
    missing), each of them once and no other row; a row whose [updated_at]
    equals the watermark is not returned; with [since = 0] every row of the
    family whose [updated_at] is positive is returned. *)
Theorem pull_returns_exactly_newer now code since st :
  code ≠ "" ->
  is_Some (families st !! code) ->
  exists selected devices,
    serve (sync_pull now (PullReq (Some code) since)) st
    = (st, Json200 (PullBody (map entry_view selected) devices now))
    ∧ NoDup selected.*1
    ∧ (forall k row,
         (k, row) ∈ selected <->
         entries st !! k = Some row ∧ k.1 = code
         ∧ match since with Some s => s | None => 0 end < en_updated_at row)
    ∧ (forall k row,
         entries st !! k = Some row ->
         en_updated_at row = match since with Some s => s | None => 0 end ->
         (k, row) ∉ selected)
    ∧ (since = Some 0 ->
       forall k row,
         entries st !! k = Some row -> k.1 = code -> 0 < en_updated_at row ->
         (k, row) ∈ selected).
Proof.
  intros Hcode [fam Hfam].
  exists (newer_rows code (num_or since 0) (entries st)),
         (map device_view_of (device_rows code (sync_data st))).
  split.
  { rewrite serve_sync_pull. cbn [q_code q_since].
    rewrite str_truthy_Some by done. cbn [negb default from_option id].
    by rewrite Hfam. }
  split; [apply NoDup_newer_rows|].
  rewrite num_or_zero.
  split; [intros k row; apply elem_of_newer_rows|].
  split.
  - intros k row _ Heq [_ [_ Hlt]]%elem_of_newer_rows. lia.
  - intros -> k row Hrow Hk Hpos. by apply elem_of_newer_rows.
Qed.

Lemma pull_returns_exactly_newer_witness :
  exists selected devices,
    serve (sync_pull 600 (PullReq (Some "AB23CD") (Some 0))) family_with_entry
    = (family_with_entry,
       Json200 (PullBody (map entry_view selected) devices 600))
    ∧ (("AB23CD", "e1"), EntryRow entry_e1 0 100) ∈ selected.
Proof.
  destruct (pull_returns_exactly_newer 600 "AB23CD" (Some 0) family_with_entry)
    as (selected & devices & Hserve & _ & _ & _ & Hzero).
  - discriminate.
  - exists (FamilyRow 1000 500). reflexivity.
  - exists selected, devices. split; [exact Hserve|].
    apply Hzero; [reflexivity | reflexivity | reflexivity | cbn; lia].
Defined.

(** ** C4: a push to an unknown family *)

(** C4, as stated, fails.  No family [ZZZZZZ] exists, and a push for it
    that carries no [device_id] is stopped by the parameter check: it is
    answered with status 400, not 404. *)
Lemma push_unknown_family_without_device :
  let req := PushReq (Some "ZZZZZZ") None None (Some [entry_e1]) in
  families family_AB23CD !! "ZZZZZZ" = None
  ∧ serve (sync_push 500 req) family_AB23CD = (family_AB23CD, Status400).
Proof. vm_compute. repeat split. Qed.

(** C4, amended: a push whose code is not a code of [families] is
    answered with status 404 when it carries a code and a [device_id]
    (both not empty), and with status 400 when one of them is missing or
    empty.  In both cases the database is left as it was. *)
Theorem push_unknown_family_writes_nothing now req st :
  (forall code, p_code req = Some code -> families st !! code = None) ->
  serve (sync_push now req) st
  = (st, if str_truthy (p_code req) && str_truthy (p_device_id req)
         then Status404 else Status400).
Proof.
  intros Hfam. rewrite serve_sync_push.
  destruct (str_truthy (p_code req)) eqn:Hc; cbn [negb orb andb]; [|done].
  destruct (str_truthy (p_device_id req)); cbn [negb]; [|done].
  apply str_truthy_inv in Hc as (code & Hcode & _).
  rewrite Hcode. cbn [default from_option id]. by rewrite (Hfam code).
Qed.

Lemma push_unknown_family_writes_nothing_witness :
  serve (sync_push 500 (PushReq (Some "ZZZZZZ") (Some "d1") None (Some [entry_e1])))
        family_AB23CD
  = (family_AB23CD, Status404).
Proof.
  apply (push_unknown_family_writes_nothing 500
           (PushReq (Some "ZZZZZZ") (Some "d1") None (Some [entry_e1]))
           family_AB23CD).
  intros code [= <-]. reflexivity.
Defined.

(** ** C5: tombstones *)

Lemma set_deleted_tombstone e :
  e_deleted e = Some (JBool true) -> set_deleted e = e.
Proof. destruct e as [i d t rest]. simpl. by intros ->. Qed.

Lemma entry_view_batch_row k now e :
  entry_view (k, batch_row now e)
  = if opt_truthy (e_deleted e) then set_deleted e else e.
Proof.
  unfold entry_view, parse_entry, batch_row. cbn [fst snd en_data en_deleted].
  by destruct (opt_truthy (e_deleted e)).
Qed.

(** C5, as stated, fails.  Device [d1] pushes the tombstone
    [{id: "e1", _ts: 200, _deleted: true}], which is stored with the
    deleted flag.  Device [d2] then pushes [{id: "e1", _ts: 100, note: "x"}]:
    the upsert replaces the row without looking at what is stored.  The
    pull with [since = 50], a watermark below the [updated_at] 200 of the
    tombstone, returns the entry without [_deleted]. *)
Lemma tombstone_replaced_by_later_push :
  let st1 := (serve (sync_push 700
                 (PushReq (Some "AB23CD") (Some "d1") None
                          (Some [entry_e1_deleted]))) family_AB23CD).1 in
  let st2 := (serve (sync_push 800
                 (PushReq (Some "AB23CD") (Some "d2") None
                          (Some [entry_e1]))) st1).1 in
  entries st1 !! ("AB23CD", "e1") = Some (EntryRow entry_e1_deleted 1 200)
  ∧ entries st2 !! ("AB23CD", "e1") = Some (EntryRow entry_e1 0 100)
  ∧ (serve (sync_pull 900 (PullReq (Some "AB23CD") (Some 50))) st2).2
    = Json200 (PullBody [entry_e1]
                 [DeviceView "d1" (JArr []) 700; DeviceView "d2" (JArr []) 800]
                 900)
  ∧ e_deleted entry_e1 = None.
Proof. vm_compute. repeat split. Qed.

(** C5, amended: no request removes a row of [entries].  A push that is
    answered with 200 and carries an entry whose [_deleted] is [true] or
    any other truthy value (the last entry with its id in the batch)
    stores the row with the deleted flag set, and every later pull of the
    family whose watermark is below the [updated_at] of that row returns
    the payload of the entry with [_deleted: true], for as long as no later
    push has replaced the row. *)
Theorem tombstone_is_kept_and_pulled now req st st' n code l1 e l2 :
  serve (sync_push now req) st = (st', Json200 n) ->
  p_code req = Some code ->
  p_entries req = Some (l1 ++ e :: l2)%list ->
  (forall e', e' ∈ l2 -> e_id e' ≠ e_id e) ->
  opt_truthy (e_deleted e) = true ->
  exists i row,
    e_id e = Some i
    ∧ entries st' !! (code, i) = Some row
    ∧ en_data row = e ∧ en_deleted row = 1
    ∧ (forall s1 s2 k,
         rtc step s1 s2 ->
         is_Some (entries s1 !! k) -> is_Some (entries s2 !! k))
    ∧ (forall st'' now' since,
         rtc step st' st'' ->
         entries st'' !! (code, i) = Some row ->
         match since with Some s => s | None => 0 end < en_updated_at row ->
         exists body d,
           serve (sync_pull now' (PullReq (Some code) since)) st''
           = (st'', Json200 body)
           ∧ d ∈ pb_entries body
           ∧ e_deleted d = Some (JBool true)
           ∧ e_id d = e_id e ∧ e_ts d = e_ts e ∧ e_rest d = e_rest e
           ∧ (e_deleted e = Some (JBool true) -> d = e)).
Proof.
  intros Hserve Hcode Hitems Hlast Hdel.
  apply sync_push_200_inv in Hserve
    as (code' & dev & Hcode' & Hne & _ & _ & Hfam & Hall & _ & ->).
  assert (code' = code) as -> by congruence.
  rewrite Hitems in Hall |- *. cbn [default from_option id] in Hall |- *.
  apply Forall_app in Hall as [_ [[i Hi] _]%Forall_cons].
  exists i, (batch_row now e). cbn [entries].
  split; [done|]. split.
  { apply batch_entries_last; [done|]. intros e' He'. rewrite <- Hi. by apply Hlast. }
  split; [done|]. split; [unfold batch_row; by rewrite Hdel|].
  split; [intros s1 s2 k; apply steps_entries|].
  intros st'' now' since Hsteps Hrow Hlt.
  assert (is_Some (families st'' !! code)) as [fam Hfam''].
  { apply (steps_families _ _ _ Hsteps). cbn [families].
    rewrite lookup_alter, decide_True by done. by apply fmap_is_Some. }
  exists (PullBody
            (map entry_view (newer_rows code (num_or since 0) (entries st'')))
            (map device_view_of (device_rows code (sync_data st'')))
            now'),
         (set_deleted e).
  split.
  { rewrite serve_sync_pull. cbn [q_code q_since].
    rewrite str_truthy_Some by done. cbn [negb default from_option id].
    by rewrite Hfam''. }
  cbn [pb_entries]. split.
  { apply list_elem_of_fmap. exists ((code, i), batch_row now e). split.
    - by rewrite entry_view_batch_row, Hdel.
    - apply elem_of_newer_rows. rewrite num_or_zero. done. }
  repeat split; try done. intros Htrue. by apply set_deleted_tombstone.
Qed.

Lemma tombstone_is_kept_and_pulled_witness :
  let st1 := (serve (sync_push 500
                 (PushReq (Some "AB23CD") (Some "d1") None (Some [entry_e4_marked])))
                 family_AB23CD).1 in
  exists body d,
    serve (sync_pull 600 (PullReq (Some "AB23CD") (Some 100))) st1
    = (st1, Json200 body)
    ∧ d ∈ pb_entries body
    ∧ e_deleted d = Some (JBool true)
    ∧ e_id d = Some "e4".
Proof.
  intros st1.
  destruct (tombstone_is_kept_and_pulled 500
              (PushReq (Some "AB23CD") (Some "d1") None (Some [entry_e4_marked]))
              family_AB23CD st1 1%nat "AB23CD" [] entry_e4_marked [])
    as (i & row & Hi & Hrow & _ & _ & _ & Hpull).
  - reflexivity.
  - reflexivity.
  - reflexivity.
  - intros e' He'. by apply elem_of_nil in He'.
  - reflexivity.
  - injection Hi as <-.
    destruct (Hpull st1 600 (Some 100) (rtc_refl _ _) Hrow)
      as (body & d & Hserve & Hin & Hdel & Hid & _).
    + assert (Some row = Some (EntryRow entry_e4_marked 1 300)) as [= ->]
        by (rewrite <- Hrow; reflexivity).
      cbn [en_updated_at]. lia.
    + by exists body, d.
Defined.

(** ** C6 and C7: joining a family *)

Lemma join_ignore_case st stored c :
  codes_canonical st ->
  is_Some (families st !! stored) ->
  eq_ignore_case c stored = true ->
  serve (family_join (Some c)) st = (st, Json200 stored).
Proof.
  intros Hcan [fam Hfam] Hcase.
  destruct (Hcan stored) as [Hlen Hall]; [by eexists|].
  destruct (toUpperCase_ignore_case c stored Hall Hcase) as [Hup Hclen].
  rewrite serve_family_join. cbn [default from_option id].
  rewrite str_truthy_Some by (intros ->; by rewrite Hlen in Hclen).
  rewrite Hclen, Hlen, Hup, Hfam. reflexivity.
Qed.

(** C6: for every family of a reachable database, joining with a code
    that differs from the stored code at most in the case of its letters
    succeeds, and the answer carries the stored code. *)
Theorem join_is_case_insensitive st stored c :
  reachable st ->
  is_Some (families st !! stored) ->
  eq_ignore_case c stored = true ->
  serve (family_join (Some c)) st = (st, Json200 stored).
Proof.
  intros Hreach. apply join_ignore_case. by apply reachable_codes_canonical.
Qed.

Lemma join_is_case_insensitive_witness :
  serve (family_join (Some "ab23cd")) family_AB23CD
  = (family_AB23CD, Json200 "AB23CD").
Proof.
  apply (join_is_case_insensitive family_AB23CD "AB23CD" "ab23cd").
  - exact reachable_AB23CD.
  - exists (FamilyRow 1000 1000). reflexivity.
  - reflexivity.
Defined.

(** C7: a join whose code is missing or has a length other than 6 is
    answered with status 400 whatever the database holds, and the database
    is left as it was. *)
Theorem join_rejects_other_lengths code :
  (code = None ∨ exists c, code = Some c ∧ String.length c ≠ 6%nat) ->
  forall st, serve (family_join code) st = (st, Status400).
Proof.
  intros Hcode st. rewrite serve_family_join.
  destruct Hcode as [-> | (c & -> & Hlen)]; [done|].
  cbn [default from_option id].
  apply Nat.eqb_neq in Hlen. rewrite Hlen.
  by rewrite orb_true_r.
Qed.

Lemma join_rejects_other_lengths_witness :
  serve (family_join (Some "AB23C")) family_AB23CD = (family_AB23CD, Status400).
Proof.
  apply (join_rejects_other_lengths (Some "AB23C")).
  right. exists "AB23C". split; [reflexivity | discriminate].
Defined.

(** ** C8: the codes that [family_create] returns *)

(** [family_create] answers as soon as one attempt draws a free code. *)
Lemma family_create_returns rnd k now st (j fuel : nat) :
  families st !! (fill_code 6 rnd (k + 6 * j) "").1 = None ->
  (j < fuel)%nat ->
  exists out, family_create fuel rnd k now st = Some out.
Proof.
  intros Hfree Hfuel.
  destruct (genCode_returns rnd st j k fuel Hfree Hfuel) as [[code k'] Hgen].
  unfold family_create. rewrite Hgen.
  destruct (serve _ st) as [st' r]. by eexists.
Qed.

(** C8: every code that [family_create] returns has length 6, consists of
    symbols of [chars], an alphabet of 32 distinct symbols without [I],
    [O], [0] and [1], and is not a code of the [families] table as it was
    when the request arrived; it is the code of the row that is added. *)
Theorem created_code_is_fresh_and_canonical fuel rnd k now st st' r k' :
  family_create fuel rnd k now st = Some (st', r, k') ->
  exists code,
    r = Json200 code
    ∧ String.length code = 6%nat
    ∧ Forall (fun c => c ∈ list_ascii_of_string chars) (list_ascii_of_string code)
    ∧ families st !! code = None
    ∧ families st' = <[code := FamilyRow now now]> (families st)
    ∧ String.length chars = 32%nat
    ∧ NoDup (list_ascii_of_string chars)
    ∧ Forall (fun c => c ∉ list_ascii_of_string chars)
             (list_ascii_of_string "IO01").
Proof.
  intros Hcreate.
  apply family_create_spec in Hcreate as (code & Hgen & -> & ->).
  apply genCode_spec in Hgen as [[Hlen Hall] Hfree].
  exists code. repeat split; try done.
  - apply (bool_decide_unpack _). vm_compute. exact I.
  - apply (bool_decide_unpack _). vm_compute. exact I.
Qed.

Lemma created_code_is_fresh_and_canonical_witness :
  exists code,
    Json200 "AB23CD" = Json200 code
    ∧ String.length code = 6%nat
    ∧ families empty_db !! code = None.
Proof.
  destruct (created_code_is_fresh_and_canonical 1 draws_AB23CD 0 1000 empty_db
              family_AB23CD (Json200 "AB23CD") 6%nat create_AB23CD)
    as (code & Hr & Hlen & _ & Hfree & _).
  by exists code.
Defined.

(** ** C9: push and pull compare the code as it is sent *)

(** A code that differs from a stored code only in the case of its
    letters is not a code of a reachable database. *)
Lemma case_variant_not_stored st stored c :
  codes_canonical st ->
  is_Some (families st !! stored) ->
  eq_ignore_case c stored = true ->
  c ≠ stored ->
  families st !! c = None ∧ c ≠ "".
Proof.
  intros Hcan Hstored Hcase Hne.
  destruct (Hcan stored Hstored) as [Hlen Hall].
  destruct (toUpperCase_ignore_case c stored Hall Hcase) as [Hup Hclen].
  split; [|intros ->; by rewrite Hlen in Hclen].
  destruct (families st !! c) as [row|] eqn:Hc; [|done].
  destruct (Hcan c) as [_ Hcall]; [by eexists|].
  rewrite toUpperCase_canonical in Hup by done. done.
Qed.

(** C9, as stated, fails.  The family [AB23CD] exists and a push with the
    code [ab23cd] that carries no [device_id] is answered with status 400,
    not with 404. *)
Lemma push_case_variant_without_device :
  let req := PushReq (Some "ab23cd") None None None in
  is_Some (families family_AB23CD !! "AB23CD")
  ∧ eq_ignore_case "ab23cd" "AB23CD" = true
  ∧ serve (sync_push 500 req) family_AB23CD = (family_AB23CD, Status400).
Proof. split; [by eexists|]. vm_compute. repeat split. Qed.

(** C9, amended: push and pull do not normalize the case of the code.
    For every family of a reachable database and every code that differs
    from the stored one only in the case of its letters, a pull and a push
    that carries a [device_id] are answered with status 404, and a push
    without [device_id] with status 400; none of them writes anything.  The
    join with that code succeeds. *)
Theorem push_pull_are_case_sensitive now st stored c :
  reachable st ->
  is_Some (families st !! stored) ->
  eq_ignore_case c stored = true ->
  c ≠ stored ->
  (forall since,
     serve (sync_pull now (PullReq (Some c) since)) st = (st, Status404))
  ∧ (forall device_id babies items,
       serve (sync_push now (PushReq (Some c) device_id babies items)) st
       = (st, if str_truthy device_id then Status404 else Status400))
  ∧ serve (family_join (Some c)) st = (st, Json200 stored).
Proof.
  intros Hreach%reachable_codes_canonical Hstored Hcase Hne.
  destruct (case_variant_not_stored st stored c Hreach Hstored Hcase Hne)
    as [Hfree Hc].
  split; [|split].
  - intros since. rewrite serve_sync_pull. cbn [q_code].
    rewrite str_truthy_Some by done. cbn [negb default from_option id].
    by rewrite Hfree.
  - intros device_id babies items. rewrite serve_sync_push.
    cbn [p_code p_device_id]. rewrite str_truthy_Some by done.
    cbn [negb orb default from_option id].
    destruct (str_truthy device_id); cbn [negb]; [|done].
    by rewrite Hfree.
  - by apply join_ignore_case.
Qed.

Lemma push_pull_are_case_sensitive_witness :
  serve (sync_pull 600 (PullReq (Some "ab23cd") (Some 0))) family_AB23CD
  = (family_AB23CD, Status404)
  ∧ serve (sync_push 600 (PushReq (Some "ab23cd") (Some "d1") None
                                  (Some [entry_e1]))) family_AB23CD
    = (family_AB23CD, Status404).
Proof.
  destruct (push_pull_are_case_sensitive 600 family_AB23CD "AB23CD" "ab23cd")
    as (Hpull & Hpush & _).
  - exact reachable_AB23CD.
  - exists (FamilyRow 1000 1000). reflexivity.
  - reflexivity.
  - discriminate.
  - split; [apply Hpull | apply (Hpush (Some "d1"))].
Defined.

(** ** C10: the snapshot of the pushing device *)

(** C10: every push that is answered with 200 leaves, under the key
    (code, device_id) of the request, the snapshot row that it wrote,
    whatever was stored there before: its timestamp is the receipt time
    and its payload is the [babies] of the request, or the empty list when
    the request has no [babies].  The rows of the other keys are left as
    they were. *)
Theorem push_replaces_snapshot now req st st' n :
  serve (sync_push now req) st = (st', Json200 n) ->
  exists code device_id row,
    p_code req = Some code ∧ p_device_id req = Some device_id
    ∧ sync_data st' !! (code, device_id) = Some row
    ∧ sd_updated_at row = now
    ∧ (p_babies req = None -> sd_data row = JArr [])
    ∧ (forall v, p_babies req = Some v -> truthy v = true -> sd_data row = v)
    ∧ (forall k, k ≠ (code, device_id) -> sync_data st' !! k = sync_data st !! k).
Proof.
  intros Hserve.
  apply sync_push_200_inv in Hserve
    as (code & dev & Hcode & _ & Hdev & _ & _ & _ & _ & ->).
  exists code, dev, (SyncRow (or_default (p_babies req) (JArr [])) now).
  cbn [sync_data sd_updated_at sd_data].
  split; [done|]. split; [done|]. split; [apply lookup_insert_eq|].
  split; [done|]. split; [by intros ->|]. split.
  - intros v -> Hv. cbn [or_default]. by rewrite Hv.
  - intros k Hk. by apply lookup_insert_ne.
Qed.

Lemma push_replaces_snapshot_witness :
  sync_data family_with_snapshot !! ("AB23CD", "d1")
  = Some (SyncRow (JArr [JObj [("name", JStr "Mia")]]) 400)
  ∧ sync_data (serve (sync_push 500
                        (PushReq (Some "AB23CD") (Some "d1") None None))
                     family_with_snapshot).1 !! ("AB23CD", "d1")
    = Some (SyncRow (JArr []) 500).
Proof.
  split; [reflexivity|].
  destruct (push_replaces_snapshot 500
              (PushReq (Some "AB23CD") (Some "d1") None None)
              family_with_snapshot
              (serve (sync_push 500
                        (PushReq (Some "AB23CD") (Some "d1") None None))
                     family_with_snapshot).1 0%nat)
    as (code & dev & row & [= <-] & [= <-] & Hrow & Hts & Hnone & _).
  - reflexivity.
  - rewrite Hrow. destruct row as [data ts]. cbn in Hts, Hnone.
    by rewrite Hts, Hnone.
Defined.

(** * Further properties of the handlers *)

(** ** What a push leaves in [families] and what it answers *)

(** X1: After a push that is answered with 200 the row of the family holds
    the receipt time as [last_sync] and its [created_at] as before; the
    rows of the other families are untouched. *)
Theorem push_sets_last_sync now req st st' n code :
  serve (sync_push now req) st = (st', Json200 n) ->
  p_code req = Some code ->
  (exists row row',
     families st !! code = Some row ∧ families st' !! code = Some row'
     ∧ last_sync row' = now ∧ created_at row' = created_at row)
  ∧ (forall other, other ≠ code -> families st' !! other = families st !! other).
Proof.
  intros Hserve Hcode.
  apply sync_push_200_inv in Hserve
    as (code' & dev & Hcode' & _ & _ & _ & [row Hrow] & _ & _ & ->).
  assert (code' = code) as -> by congruence. cbn [families]. split.
  - exists row, (touch_family now row). split; [done|].
    split; [|done]. by rewrite lookup_alter_eq, Hrow.
  - intros other Hother. by rewrite lookup_alter_ne.
Qed.

Lemma push_sets_last_sync_witness :
  last_sync <$> families family_with_entry !! "AB23CD" = Some 500.
Proof.
  destruct (push_sets_last_sync 500
              (PushReq (Some "AB23CD") (Some "d1") None (Some [entry_e1]))
              family_AB23CD family_with_entry 1%nat "AB23CD")
    as [(row & row' & _ & Hrow' & Hsync & _) _].
  - reflexivity.
  - reflexivity.
  - rewrite Hrow'. cbn. by rewrite Hsync.
Defined.

(** X2: A push that is not answered with 200 leaves [families] as it was:
    [last_sync] moves only when the whole push went through. *)
Theorem failed_push_keeps_families now req st st' r :
  serve (sync_push now req) st = (st', r) ->
  (forall n, r ≠ Json200 n) ->
  families st' = families st.
Proof.
  rewrite serve_sync_push.
  destruct (negb _ || negb _); [by intros [= <- <-]|]. cbv zeta.
  destruct (families st !! _); [|by intros [= <- <-]].
  destruct (decide (Forall has_id _)); intros [= <- <-]; [|done].
  intros Hr. by destruct (Hr (length (default [] (p_entries req)))).
Qed.

Lemma failed_push_keeps_families_witness :
  families (serve (sync_push 500
              (PushReq (Some "AB23CD") (Some "d2") None
                       (Some [entry_e1; entry_no_id])))
              family_AB23CD).1 = families family_AB23CD.
Proof.
  apply (failed_push_keeps_families 500
           (PushReq (Some "AB23CD") (Some "d2") None
                    (Some [entry_e1; entry_no_id]))
           family_AB23CD _ Status500).
  - reflexivity.
  - discriminate.
Defined.

(** X3: The [synced] count of the answer is the length of the batch as it was
    sent, repeated ids included, and 0 when the request has no [entries]. *)
Theorem push_synced_is_batch_length now req st st' n :
  serve (sync_push now req) st = (st', Json200 n) ->
  n = match p_entries req with
      | Some items => length items
      | None => 0%nat
      end.
Proof.
  intros Hserve.
  apply sync_push_200_inv in Hserve as (code & dev & _ & _ & _ & _ & _ & _ & -> & _).
  by destruct (p_entries req).
Qed.

Lemma push_synced_is_batch_length_witness :
  (serve (sync_push 500
            (PushReq (Some "AB23CD") (Some "d1") None
                     (Some [entry_e1; entry_e1_deleted])))
         family_AB23CD).2 = Json200 2%nat
  ∧ 2%nat = length [entry_e1; entry_e1_deleted].
Proof.
  split; [reflexivity|].
  apply (push_synced_is_batch_length 500
           (PushReq (Some "AB23CD") (Some "d1") None
                    (Some [entry_e1; entry_e1_deleted]))
           family_AB23CD
           (serve (sync_push 500
                     (PushReq (Some "AB23CD") (Some "d1") None
                              (Some [entry_e1; entry_e1_deleted])))
                  family_AB23CD).1).
  reflexivity.
Defined.

(** ** The device list of a pull *)

Lemma elem_of_device_rows code m k row :
  (k, row) ∈ device_rows code m <-> m !! k = Some row ∧ k.1 = code.
Proof.
  unfold device_rows. rewrite list_elem_of_filter, elem_of_map_to_list.
  simpl. tauto.
Qed.

Lemma NoDup_device_rows code m : NoDup (device_rows code m).*1.
Proof.
  apply (sublist_NoDup _ (map_to_list m).*1); [apply NoDup_fst_map_to_list|].
  unfold device_rows. apply fmap_sublist, sublist_filter.
Qed.

Lemma serve_sync_pull_known now code since st :
  code ≠ "" ->
  is_Some (families st !! code) ->
  serve (sync_pull now (PullReq (Some code) since)) st
  = (st, Json200 (PullBody
                    (map entry_view (newer_rows code (num_or since 0) (entries st)))
                    (map device_view_of (device_rows code (sync_data st)))
                    now)).
Proof.
  intros Hcode [fam Hfam]. rewrite serve_sync_pull. cbn [q_code q_since].
  rewrite str_truthy_Some by done. cbn [negb default from_option id].
  by rewrite Hfam.
Qed.

(** X4: A pull of a family lists the snapshot rows of all its devices, each
    once and no other row, whatever [since] is; the answer carries the
    clock as [server_time]. *)
Theorem pull_lists_every_device now code st :
  code ≠ "" ->
  is_Some (families st !! code) ->
  exists rows,
    NoDup rows.*1
    ∧ (forall k row, (k, row) ∈ rows <-> sync_data st !! k = Some row ∧ k.1 = code)
    ∧ forall since, exists body,
        serve (sync_pull now (PullReq (Some code) since)) st = (st, Json200 body)
        ∧ pb_devices body = map device_view_of rows
        ∧ pb_server_time body = now.
Proof.
  intros Hcode Hfam. exists (device_rows code (sync_data st)).
  split; [apply NoDup_device_rows|].
  split; [intros k row; apply elem_of_device_rows|].
  intros since. eexists. split; [by apply serve_sync_pull_known|]. done.
Qed.

Lemma pull_lists_every_device_witness :
  exists body,
    serve (sync_pull 900 (PullReq (Some "AB23CD") (Some 5000))) family_with_entry
    = (family_with_entry, Json200 body)
    ∧ DeviceView "d1" (JArr []) 500 ∈ pb_devices body.
Proof.
  destruct (pull_lists_every_device 900 "AB23CD" family_with_entry)
    as (rows & _ & Hrows & Hpull).
  - discriminate.
  - exists (FamilyRow 1000 500). reflexivity.
  - destruct (Hpull (Some 5000)) as (body & Hserve & Hdev & _).
    exists body. split; [exact Hserve|]. rewrite Hdev.
    apply list_elem_of_fmap.
    exists (("AB23CD", "d1"), SyncRow (JArr []) 500). split; [reflexivity|].
    apply Hrows. split; reflexivity.
Defined.

(** ** Round trips through push and pull *)





(** ** Families are isolated from each other *)

Lemma batch_entries_lookup_inv code now items m k row :
  batch_entries code now items m !! k = Some row ->
  m !! k = Some row
  ∨ (k.1 = code ∧ exists e, e ∈ items ∧ e_id e = Some k.2 ∧ row = batch_row now e).
Proof.
  revert m. induction items as [|e rest IH]; intros m; [by left|].
  rewrite batch_entries_cons. intros Hrow.
  destruct (IH _ Hrow) as [Hm | (Hk & e' & He' & Hid & ->)].
  - destruct (e_id e) as [i|] eqn:Hi; [|by left].
    rewrite lookup_insert in Hm. case_decide as Heq; [|by left].
    injection Hm as <-. subst k. right. split; [done|].
    exists e. split; [by left | done].
  - right. split; [done|]. exists e'. split; [by right | done].
Qed.

Lemma push_frame now req st code other :
  p_code req = Some code ->
  other ≠ code ->
  families (serve (sync_push now req) st).1 !! other = families st !! other
  ∧ (forall k, k.1 = other ->
       entries (serve (sync_push now req) st).1 !! k = entries st !! k)
  ∧ (forall k, k.1 = other ->
       sync_data (serve (sync_push now req) st).1 !! k = sync_data st !! k).
Proof.
  intros Hcode Hother. rewrite serve_sync_push, Hcode.
  destruct (negb _ || negb _); [done|]. cbv zeta. cbn [default from_option id].
  destruct (families st !! code); [|done].
  destruct (decide (Forall has_id _)); cbn [fst families entries sync_data].
  - split; [by rewrite lookup_alter_ne|]. split; intros k Hk.
    + apply batch_entries_foreign. congruence.
    + apply lookup_insert_ne. intros <-. by cbn in Hk.
  - split; [done|]. split; intros k Hk; [done|].
    apply lookup_insert_ne. intros <-. by cbn in Hk.
Qed.

Lemma newer_rows_agree (code : string) (since : Z)
    (m1 m2 : gmap (string * string) entry_row) :
  (forall k : string * string, k.1 = code -> m1 !! k = m2 !! k) ->
  newer_rows code since m1 ≡ₚ newer_rows code since m2.
Proof.
  intros Hagree.
  apply NoDup_Permutation;
    [eapply NoDup_fmap_1, NoDup_newer_rows | eapply NoDup_fmap_1, NoDup_newer_rows |].
  intros [k row]. rewrite !elem_of_newer_rows.
  split; intros (Hrow & Hk & Hlt); (split; [|done]).
  - by rewrite <- Hagree.
  - by rewrite Hagree.
Qed.

Lemma device_rows_agree (code : string) (m1 m2 : gmap (string * string) sync_row) :
  (forall k : string * string, k.1 = code -> m1 !! k = m2 !! k) ->
  device_rows code m1 ≡ₚ device_rows code m2.
Proof.
  intros Hagree.
  apply NoDup_Permutation;
    [eapply NoDup_fmap_1, NoDup_device_rows | eapply NoDup_fmap_1, NoDup_device_rows |].
  intros [k row]. rewrite !elem_of_device_rows.
  split; intros (Hrow & Hk); (split; [|done]).
  - by rewrite <- Hagree.
  - by rewrite Hagree.
Qed.

Lemma pull_depends_on_family now req st1 st2 :
  (forall code, q_code req = Some code ->
     families st1 !! code = families st2 !! code
     ∧ (forall k, k.1 = code -> entries st1 !! k = entries st2 !! k)
     ∧ (forall k, k.1 = code -> sync_data st1 !! k = sync_data st2 !! k)) ->
  same_pull (serve (sync_pull now req) st1).2 (serve (sync_pull now req) st2).2.
Proof.
  intros Hagree. rewrite !serve_sync_pull.
  destruct (str_truthy (q_code req)) eqn:Hc; cbn [negb]; [|done].
  apply str_truthy_inv in Hc as (code & Hcode & _).
  destruct (Hagree code Hcode) as (Hfam & Hentries & Hsync).
  rewrite Hcode. cbv zeta. cbn [default from_option id]. rewrite Hfam.
  destruct (families st2 !! code); [|done].
  cbn [snd same_pull pb_entries pb_devices pb_server_time].
  split; [|split; [|done]].
  - apply fmap_Permutation. by apply newer_rows_agree.
  - apply fmap_Permutation. by apply device_rows_agree.
Qed.

(** X7: A push for one family, whatever it answers, leaves the rows of every
    other family in the three tables as they were, and every pull of
    another family answers as before, up to the order of the lists. *)
Theorem push_leaves_other_families now req st code other :
  p_code req = Some code ->
  other ≠ code ->
  families (serve (sync_push now req) st).1 !! other = families st !! other
  ∧ (forall i, entries (serve (sync_push now req) st).1 !! (other, i)
               = entries st !! (other, i))
  ∧ (forall d, sync_data (serve (sync_push now req) st).1 !! (other, d)
               = sync_data st !! (other, d))
  ∧ (forall now' since,
       same_pull
         (serve (sync_pull now' (PullReq (Some other) since))
                (serve (sync_push now req) st).1).2
         (serve (sync_pull now' (PullReq (Some other) since)) st).2).
Proof.
  intros Hcode Hother.
  destruct (push_frame now req st code other Hcode Hother) as (Hfam & Hent & Hsync).
  split; [done|]. split; [intros i; by apply Hent|].
  split; [intros d; by apply Hsync|].
  intros now' since. apply pull_depends_on_family.
  intros c [= <-]. done.
Qed.

Lemma push_leaves_other_families_witness :
  entries (serve (sync_push 1300
                    (PushReq (Some "EF45GH") (Some "d9") None
                             (Some [entry_e1_deleted])))
                 two_families).1 !! ("AB23CD", "e1")
  = Some (EntryRow entry_e1 0 100).
Proof.
  destruct (push_leaves_other_families 1300
              (PushReq (Some "EF45GH") (Some "d9") None (Some [entry_e1_deleted]))
              two_families "EF45GH" "AB23CD")
    as (_ & Hent & _).
  - reflexivity.
  - discriminate.
  - rewrite Hent. reflexivity.
Defined.

(** ** What the handlers never do *)

(** X8: Join, pull, info and health never write: whatever they are sent and
    whatever they answer, the database is as before. *)
Theorem read_routes_never_write st :
  (forall code, (serve (family_join code) st).1 = st)
  ∧ (forall now req, (serve (sync_pull now req) st).1 = st)
  ∧ (forall code, (serve (family_info code) st).1 = st)
  ∧ (forall now_ms, serve (health now_ms) st = (st, Json200 now_ms)).
Proof.
  split; [intros code; apply serve_family_join_state|].
  split; [intros now req; apply serve_sync_pull_state|].
  split; [intros code; apply serve_family_info_state|].
  done.
Qed.

Lemma step_sync_data st st' k :
  step st st' -> is_Some (sync_data st !! k) -> is_Some (sync_data st' !! k).
Proof.
  destruct 1 as [fuel rnd k0 now st st' r k' Hcreate|code st|now req st|now req st|code st].
  - by apply family_create_spec in Hcreate as (code & _ & _ & ->).
  - by rewrite serve_family_join_state.
  - rewrite serve_sync_push.
    destruct (negb _ || negb _); [done|]. cbv zeta.
    destruct (families st !! default "" (p_code req)); [|done].
    destruct (decide (Forall has_id (default [] (p_entries req))));
      cbn [fst sync_data]; intros Hk;
      (rewrite lookup_insert; case_decide; [by eexists | done]).
  - by rewrite serve_sync_pull_state.
  - by rewrite serve_family_info_state.
Qed.

(** X9: No sequence of requests removes a row: the keys of [families], of
    [sync_data] and of [entries] only grow. *)
Theorem tables_only_grow st st' :
  rtc step st st' ->
  (forall code, is_Some (families st !! code) -> is_Some (families st' !! code))
  ∧ (forall k, is_Some (sync_data st !! k) -> is_Some (sync_data st' !! k))
  ∧ (forall k, is_Some (entries st !! k) -> is_Some (entries st' !! k)).
Proof.
  induction 1 as [|st mid st' Hstep _ (IHf & IHs & IHe)]; [done|].
  split; [|split].
  - intros code Hcode. by apply IHf, (step_families _ _ Hstep).
  - intros k Hk. by apply IHs, (step_sync_data _ _ _ Hstep).
  - intros k Hk. by apply IHe, (step_entries _ _ _ Hstep).
Qed.

Lemma steps_family_with_tombstone : rtc step family_AB23CD family_with_tombstone.
Proof.
  eapply rtc_l; [apply (step_push 500
      (PushReq (Some "AB23CD") (Some "d1") None (Some [entry_e1])))|].
  eapply rtc_l; [apply (step_push 700
      (PushReq (Some "AB23CD") (Some "d2") None (Some [entry_e1_deleted])))|].
  apply rtc_refl.
Defined.

Lemma tables_only_grow_witness :
  is_Some (sync_data family_with_tombstone !! ("AB23CD", "d1"))
  ∧ is_Some (entries family_with_tombstone !! ("AB23CD", "e1")).
Proof.
  destruct (tables_only_grow family_with_entry family_with_tombstone)
    as (_ & Hsync & Hent).
  - eapply rtc_l; [apply (step_push 700
        (PushReq (Some "AB23CD") (Some "d2") None (Some [entry_e1_deleted])))|].
    apply rtc_refl.
  - split; [apply Hsync | apply Hent]; eexists; reflexivity.
Defined.

Lemma step_created_at st st' code row :
  step st st' ->
  families st !! code = Some row ->
  exists row', families st' !! code = Some row' ∧ created_at row' = created_at row.
Proof.
  destruct 1 as [fuel rnd k0 now st st' r k' Hcreate|c st|now req st|now req st|c st];
    intros Hrow.
  - apply family_create_spec in Hcreate as (new & Hgen & _ & ->).
    apply genCode_spec in Hgen as [_ Hfree]. cbn [families].
    exists row. split; [|done]. rewrite lookup_insert_ne; [done|]. congruence.
  - rewrite serve_family_join_state. eauto.
  - rewrite serve_sync_push.
    destruct (negb _ || negb _); [eauto|]. cbv zeta.
    destruct (families st !! default "" (p_code req)); [|eauto].
    destruct (decide (Forall has_id (default [] (p_entries req))));
      cbn [fst families]; [|eauto].
    destruct (decide (default "" (p_code req) = code)) as [->|Hne].
    + rewrite lookup_alter_eq, Hrow. cbn. eauto.
    + rewrite lookup_alter_ne by done. eauto.
  - rewrite serve_sync_pull_state. eauto.
  - rewrite serve_family_info_state. eauto.
Qed.

(** X10: The [created_at] of a family never changes, whatever requests
    follow its creation. *)
Theorem created_at_never_changes st st' code row :
  rtc step st st' ->
  families st !! code = Some row ->
  exists row', families st' !! code = Some row' ∧ created_at row' = created_at row.
Proof.
  intros Hsteps. revert row.
  induction Hsteps as [|st mid st' Hstep _ IH]; intros row Hrow; [eauto|].
  destruct (step_created_at _ _ _ _ Hstep Hrow) as (mrow & Hmid & <-).
  by apply IH.
Qed.

Lemma created_at_never_changes_witness :
  created_at <$> families family_with_tombstone !! "AB23CD" = Some 1000.
Proof.
  destruct (created_at_never_changes family_AB23CD family_with_tombstone
              "AB23CD" (FamilyRow 1000 1000) steps_family_with_tombstone)
    as (row' & Hrow' & Hcreated).
  - reflexivity.
  - rewrite Hrow'. cbn. by rewrite Hcreated.
Defined.

(** ** Invariants of the rows *)

Lemma step_rows st st' :
  step st st' ->
  (forall k, is_Some (sync_data st' !! k) ->
     is_Some (sync_data st !! k) ∨ is_Some (families st !! k.1))
  ∧ (forall k row, entries st' !! k = Some row ->
       entries st !! k = Some row
       ∨ (is_Some (families st !! k.1)
          ∧ exists now e, e_id e = Some k.2 ∧ row = batch_row now e)).
Proof.
  destruct 1 as [fuel rnd k0 now st st' r k' Hcreate|c st|now req st|now req st|c st].
  - apply family_create_spec in Hcreate as (new & _ & _ & ->). cbn. eauto.
  - rewrite serve_family_join_state. eauto.
  - rewrite serve_sync_push.
    destruct (negb _ || negb _); [eauto|]. cbv zeta.
    destruct (families st !! default "" (p_code req)) as [fam|] eqn:Hfam; [|eauto].
    assert (forall k : string * string,
              is_Some (<[(default "" (p_code req), default "" (p_device_id req)) :=
                           SyncRow (or_default (p_babies req) (JArr [])) now]>
                         (sync_data st) !! k) ->
              is_Some (sync_data st !! k) ∨ is_Some (families st !! k.1)) as Hsync.
    { intros k. rewrite lookup_insert. case_decide as Heq; [|by left].
      subst k. right. cbn. by rewrite Hfam. }
    destruct (decide (Forall has_id (default [] (p_entries req))));
      cbn [fst sync_data entries]; (split; [done|]); [|eauto].
    intros k row Hrow.
    apply batch_entries_lookup_inv in Hrow as [Hold | (Hk & e & _ & Hid & ->)];
      [by left|].
    right. rewrite Hk, Hfam. eauto.
  - rewrite serve_sync_pull_state. eauto.
  - rewrite serve_family_info_state. eauto.
Qed.

Lemma steps_rows_have_family st st' :
  rtc step st st' -> rows_have_family st -> rows_have_family st'.
Proof.
  induction 1 as [|st mid st' Hstep _ IH]; [done|].
  intros [Hsync Hent]. apply IH.
  destruct (step_rows _ _ Hstep) as [Hs He].
  pose proof (proj1 (step_families _ _ Hstep)) as Hfam.
  split.
  - intros k Hk. destruct (Hs k Hk) as [Hold|Hnew]; apply Hfam; [by apply Hsync|done].
  - intros k [row Hk]. destruct (He k row Hk) as [Hold|[Hnew _]];
      apply Hfam; [apply Hent; by eexists | done].
Qed.

Lemma rows_have_family_empty : rows_have_family empty_db.
Proof.
  split; intros k [row Hrow]; cbn in Hrow; by rewrite lookup_empty in Hrow.
Qed.

(** X11: In every database that the server can reach, a snapshot row or an
    entry row exists only for a family of the [families] table. *)
Theorem reachable_rows_have_family st :
  reachable st -> rows_have_family st.
Proof.
  intros Hreach.
  apply (steps_rows_have_family _ _ Hreach), rows_have_family_empty.
Qed.

Lemma reachable_family_with_tombstone : reachable family_with_tombstone.
Proof.
  unfold reachable. transitivity family_AB23CD;
    [exact reachable_AB23CD | exact steps_family_with_tombstone].
Defined.

Lemma reachable_rows_have_family_witness :
  is_Some (families family_with_tombstone !! "AB23CD").
Proof.
  apply (proj2 (reachable_rows_have_family family_with_tombstone
                  reachable_family_with_tombstone) ("AB23CD", "e1")).
  eexists. reflexivity.
Defined.

Lemma steps_entry_rows_consistent st st' :
  rtc step st st' -> entry_rows_consistent st -> entry_rows_consistent st'.
Proof.
  induction 1 as [|st mid st' Hstep _ IH]; [done|].
  intros Hcons. apply IH. intros k row Hrow.
  destruct (proj2 (step_rows _ _ Hstep) k row Hrow)
    as [Hold | (_ & now & e & Hid & ->)]; [by apply Hcons | done].
Qed.

(** X12: In every database that the server can reach, an entry row is keyed
    by the [id] of its payload and its [deleted] column is 1 when the
    [_deleted] of the stored payload is truthy and 0 when it is falsy or
    missing.  A pull hands the payload out as it is stored in the second
    case and with [_deleted] rewritten to [true] in the first. *)
Theorem reachable_entry_rows_consistent st k row :
  reachable st ->
  entries st !! k = Some row ->
  e_id (en_data row) = Some k.2
  ∧ (en_deleted row = 1
     ∧ opt_truthy (e_deleted (en_data row)) = true
     ∧ entry_view (k, row)
       = {| e_id := e_id (en_data row); e_deleted := Some (JBool true);
            e_ts := e_ts (en_data row); e_rest := e_rest (en_data row) |}
     ∨ en_deleted row = 0
       ∧ opt_truthy (e_deleted (en_data row)) = false
       ∧ entry_view (k, row) = en_data row).
Proof.
  intros Hreach Hrow.
  assert (entry_rows_consistent st) as Hcons.
  { apply (steps_entry_rows_consistent _ _ Hreach).
    intros k' row' Hrow'. cbn in Hrow'. by rewrite lookup_empty in Hrow'. }
  destruct (Hcons k row Hrow) as [Hid Hdel]. split; [done|].
  unfold entry_view, parse_entry. cbn [fst snd]. rewrite Hdel.
  destruct (opt_truthy (e_deleted (en_data row))); cbn [Z.eqb negb].
  - left. done.
  - right. done.
Qed.

Lemma reachable_entry_rows_consistent_witness :
  entry_view (("AB23CD", "e4"), EntryRow entry_e4_marked 1 300)
  = Entry (Some "e4") (Some (JBool true)) (Some 300) [].
Proof.
  destruct (reachable_entry_rows_consistent
              (serve (sync_push 500
                        (PushReq (Some "AB23CD") (Some "d1") None
                                 (Some [entry_e4_marked])))
                     family_AB23CD).1
              ("AB23CD", "e4") (EntryRow entry_e4_marked 1 300))
    as (_ & [(_ & _ & Hview) | (Hzero & _)]).
  - unfold reachable. transitivity family_AB23CD; [exact reachable_AB23CD|].
    eapply rtc_l; [apply (step_push 500
        (PushReq (Some "AB23CD") (Some "d1") None (Some [entry_e4_marked])))|].
    apply rtc_refl.
  - reflexivity.
  - exact Hview.
  - discriminate Hzero.
Defined.

(** ** The retry loop of [genCode] *)

(** X13: [genCode] returns the code of its first attempt that is free: when
    the first [j] attempts draw codes that are taken and the next one a
    free code, that code is returned after [6 * (j + 1)] calls of the
    random source, as soon as the fuel allows [j + 1] attempts. *)
Theorem genCode_returns_first_free rnd st (j : nat) :
  forall k fuel,
    (forall j', (j' < j)%nat ->
       is_Some (families st !! (fill_code 6 rnd (k + 6 * j') "").1)) ->
    families st !! (fill_code 6 rnd (k + 6 * j) "").1 = None ->
    (j < fuel)%nat ->
    genCode fuel rnd k st
    = Some ((fill_code 6 rnd (k + 6 * j) "").1, (k + 6 * (j + 1))%nat).
Proof.
  induction j as [|j IH]; intros k fuel Htaken Hfree Hfuel;
    (destruct fuel as [|fuel]; [lia|]); cbn [genCode].
  - replace (k + 6 * 0)%nat with k in Hfree |- * by lia.
    pose proof (fill_code_spec 6 rnd k "") as (Hk & _).
    destruct (fill_code 6 rnd k "") as [c kk]. cbn [fst snd] in *.
    rewrite Hfree. subst kk. reflexivity.
  - pose proof (Htaken 0%nat ltac:(lia)) as [row Hrow].
    replace (k + 6 * 0)%nat with k in Hrow by lia.
    pose proof (fill_code_spec 6 rnd k "") as (Hk & _).
    destruct (fill_code 6 rnd k "") as [c kk]. cbn [fst snd] in *. subst kk.
    rewrite Hrow.
    replace (k + 6 * S j)%nat with (k + 6 + 6 * j)%nat in Hfree |- * by lia.
    replace (k + 6 * (S j + 1))%nat with (k + 6 + 6 * (j + 1))%nat by lia.
    apply IH; [|done|lia].
    intros j' Hj'. replace (k + 6 + 6 * j')%nat with (k + 6 * S j')%nat by lia.
    apply Htaken. lia.
Qed.

Lemma genCode_returns_first_free_witness :
  genCode 2 (fun k => nth k [0; 1; 24; 25; 2; 3; 4; 5; 26; 27; 6; 7] 0)%nat 0
          family_AB23CD
  = Some ("EF45GH", 12%nat).
Proof.
  apply (genCode_returns_first_free
           (fun k => nth k [0; 1; 24; 25; 2; 3; 4; 5; 26; 27; 6; 7] 0)%nat
           family_AB23CD 1 0 2).
  - intros j' Hj'. assert (j' = 0%nat) as -> by lia.
    exists (FamilyRow 1000 1000). reflexivity.
  - reflexivity.
  - lia.
Defined.

(** ** Create, join and info *)

Lemma serve_family_info code st :
  serve (family_info code) st =
  match families st !! code with
  | None => (st, Status404)
  | Some row =>
      (st, Json200 (InfoBody (length (device_rows code (sync_data st)))
                             (length (live_rows code (entries st)))
                             (last_sync row)))
  end.
Proof.
  unfold family_info, serve, bind at 1, select_family.
  destruct (families st !! code) as [row|]; [|done].
  unfold bind, select_devices, count_live_entries, ret.
  rewrite omap_decide_filter. unfold device_rows, live_rows.
  by rewrite length_map.
Qed.

Lemma join_canonical_code st stored c :
  canonical stored ->
  is_Some (families st !! stored) ->
  eq_ignore_case c stored = true ->
  serve (family_join (Some c)) st = (st, Json200 stored).
Proof.
  intros [Hlen Hall] [fam Hfam] Hcase.
  destruct (toUpperCase_ignore_case c stored Hall Hcase) as [Hup Hclen].
  rewrite serve_family_join. cbn [default from_option id].
  rewrite str_truthy_Some by (intros ->; by rewrite Hlen in Hclen).
  rewrite Hclen, Hlen, Hup, Hfam. reflexivity.
Qed.

(** X14: The code that a create has answered can be joined at once, in any
    letter case, in whatever database the create ran; the join answers
    the code as it was created. *)
Theorem created_code_can_be_joined fuel rnd k now st st' code k' c :
  family_create fuel rnd k now st = Some (st', Json200 code, k') ->
  eq_ignore_case c code = true ->
  serve (family_join (Some c)) st' = (st', Json200 code).
Proof.
  intros Hcreate Hcase.
  apply family_create_spec in Hcreate as (code' & Hgen & [= <-] & ->).
  apply genCode_spec in Hgen as [Hcan _].
  apply join_canonical_code; [done| |done].
  cbn [families]. rewrite lookup_insert_eq. by eexists.
Qed.

Lemma created_code_can_be_joined_witness :
  serve (family_join (Some "Ab23cD")) family_AB23CD
  = (family_AB23CD, Json200 "AB23CD").
Proof.
  apply (created_code_can_be_joined 1 draws_AB23CD 0 1000 empty_db
           family_AB23CD "AB23CD" 6%nat "Ab23cD").
  - exact create_AB23CD.
  - reflexivity.
Defined.

Lemma filter_no_match {A} (P : A -> Prop) `{!forall x, Decision (P x)} (l : list A) :
  (forall x, x ∈ l -> ¬ P x) -> filter P l = [].
Proof.
  intros Hno. apply elem_of_nil_inv. intros x [HP Hx]%list_elem_of_filter.
  by apply (Hno x).
Qed.

(** X15: In a database that the server can reach, a family that was just
    created has no device and no entry, and its [last_sync] is the time of
    its creation: the info of the new code answers 0, 0 and that time. *)
Theorem created_family_is_empty fuel rnd k now st st' r k' :
  reachable st ->
  family_create fuel rnd k now st = Some (st', r, k') ->
  exists code,
    r = Json200 code
    ∧ serve (family_info code) st' = (st', Json200 (InfoBody 0 0 now)).
Proof.
  intros Hreach Hcreate.
  destruct (steps_rows_have_family _ _ Hreach rows_have_family_empty)
    as [Hsync Hent].
  apply family_create_spec in Hcreate as (code & Hgen & -> & ->).
  apply genCode_spec in Hgen as [_ Hfree].
  exists code. split; [done|].
  rewrite serve_family_info. cbn [families sync_data entries].
  rewrite lookup_insert_eq. cbn [last_sync].
  unfold device_rows, live_rows. rewrite !filter_no_match; [done| |].
  - intros [key row] Hin%elem_of_map_to_list [Hk _]. cbn in Hk. subst code.
    destruct (Hent key) as [fam Hfam]; [by eexists|]. congruence.
  - intros [key row] Hin%elem_of_map_to_list Hk. cbn in Hk. subst code.
    destruct (Hsync key) as [fam Hfam]; [by eexists|]. congruence.
Qed.

Lemma created_family_is_empty_witness :
  serve (family_info "AB23CD") family_AB23CD
  = (family_AB23CD, Json200 (InfoBody 0 0 1000)).
Proof.
  destruct (created_family_is_empty 1 draws_AB23CD 0 1000 empty_db
              family_AB23CD (Json200 "AB23CD") 6%nat)
    as (code & [= <-] & Hinfo).
  - apply rtc_refl.
  - exact create_AB23CD.
  - exact Hinfo.
Defined.

(** X16: After a push that was answered with 200, the info of the family
    answers with the receipt time of that push as [last_sync] and counts at
    least one device. *)
Theorem info_after_push now req st st' n code :
  serve (sync_push now req) st = (st', Json200 n) ->
  p_code req = Some code ->
  exists info,
    serve (family_info code) st' = (st', Json200 info)
    ∧ ib_last_sync info = now
    ∧ (1 <= ib_devices info)%nat.
Proof.
  intros Hserve Hcode.
  apply sync_push_200_inv in Hserve
    as (code' & dev & Hcode' & _ & _ & _ & [row Hrow] & _ & _ & ->).
  assert (code' = code) as -> by congruence.
  rewrite serve_family_info. cbn [families sync_data entries].
  rewrite lookup_alter_eq, Hrow. cbn [fmap option_fmap option_map].
  eexists. split; [reflexivity|]. cbn [ib_last_sync ib_devices last_sync touch_family].
  split; [done|].
  assert (((code, dev), SyncRow (or_default (p_babies req) (JArr [])) now)
          ∈ device_rows code
              (<[(code, dev) := SyncRow (or_default (p_babies req) (JArr [])) now]>
                 (sync_data st))) as Hin.
  { apply elem_of_device_rows. split; [apply lookup_insert_eq | done]. }
  destruct (device_rows code _) as [|x l]; [by apply elem_of_nil in Hin|].
  cbn. lia.
Qed.

Lemma info_after_push_witness :
  exists info,
    serve (family_info "AB23CD") family_with_entry
    = (family_with_entry, Json200 info)
    ∧ ib_last_sync info = 500.
Proof.
  destruct (info_after_push 500
              (PushReq (Some "AB23CD") (Some "d1") None (Some [entry_e1]))
              family_AB23CD family_with_entry 1%nat "AB23CD")
    as (info & Hinfo & Hsync & _).
  - reflexivity.
  - reflexivity.
  - by exists info.
Defined.

(** X17: The info of a family counts as devices the snapshot rows that a pull
    of the same family lists, whatever the [since] of the pull. *)
Theorem info_counts_pulled_devices now code since st :
  code ≠ "" ->
  is_Some (families st !! code) ->
  exists info body,
    serve (family_info code) st = (st, Json200 info)
    ∧ serve (sync_pull now (PullReq (Some code) since)) st = (st, Json200 body)
    ∧ ib_devices info = length (pb_devices body).
Proof.
  intros Hcode [row Hrow].
  rewrite serve_family_info, Hrow, serve_sync_pull_known by (done || by eexists).
  do 2 eexists. split; [reflexivity|]. split; [reflexivity|].
  cbn [ib_devices pb_devices]. by rewrite length_map.
Qed.

Lemma info_counts_pulled_devices_witness :
  exists info body,
    serve (family_info "AB23CD") family_with_tombstone
    = (family_with_tombstone, Json200 info)
    ∧ serve (sync_pull 900 (PullReq (Some "AB23CD") None)) family_with_tombstone
      = (family_with_tombstone, Json200 body)
    ∧ ib_devices info = length (pb_devices body).
Proof.
  apply (info_counts_pulled_devices 900 "AB23CD" None family_with_tombstone).
  - discriminate.
  - eexists. reflexivity.
Defined.

(** ** Rejected requests *)

(** X18: A push without code or without [device_id] (missing or empty) and a
    pull without code are answered with status 400 in every database, also
    when the family exists, and write nothing. *)
Theorem missing_parameters_are_rejected st :
  (forall now req,
     p_code req = None ∨ p_code req = Some ""
     ∨ p_device_id req = None ∨ p_device_id req = Some "" ->
     serve (sync_push now req) st = (st, Status400))
  ∧ (forall now req,
       q_code req = None ∨ q_code req = Some "" ->
       serve (sync_pull now req) st = (st, Status400)).
Proof.
  split.
  - intros now req Hmiss. rewrite serve_sync_push.
    destruct Hmiss as [-> | [-> | [-> | ->]]]; cbn [str_truthy negb orb];
      rewrite ?orb_true_r; done.
  - intros now req Hmiss. rewrite serve_sync_pull.
    by destruct Hmiss as [-> | ->].
Qed.

Lemma missing_parameters_are_rejected_witness :
  serve (sync_push 500 (PushReq (Some "AB23CD") (Some "") None (Some [entry_e1])))
        family_AB23CD
  = (family_AB23CD, Status400).
Proof.
  apply (proj1 (missing_parameters_are_rejected family_AB23CD) 500
           (PushReq (Some "AB23CD") (Some "") None (Some [entry_e1]))).
  right. right. right. reflexivity.
Defined.

(** X19: A code of length 6 whose upper case is no code of [families] cannot
    be joined, and a code that is not in [families] as it is sent cannot be
    pulled or asked for info: the answer is status 404, and nothing is
    written. *)
Theorem unknown_family_is_not_found st :
  (forall c,
     String.length c = 6%nat -> families st !! toUpperCase c = None ->
     serve (family_join (Some c)) st = (st, Status404))
  ∧ (forall now code since,
       code ≠ "" -> families st !! code = None ->
       serve (sync_pull now (PullReq (Some code) since)) st = (st, Status404))
  ∧ (forall code,
       families st !! code = None ->
       serve (family_info code) st = (st, Status404)).
Proof.
  split; [|split].
  - intros c Hlen Hfree. rewrite serve_family_join. cbn [default from_option id].
    rewrite str_truthy_Some by (intros ->; done).
    rewrite Hlen, Hfree. reflexivity.
  - intros now code since Hcode Hfree. rewrite serve_sync_pull. cbn [q_code].
    rewrite str_truthy_Some by done. cbn [negb default from_option id].
    by rewrite Hfree.
  - intros code Hfree. by rewrite serve_family_info, Hfree.
Qed.

Lemma unknown_family_is_not_found_witness :
  serve (family_join (Some "zzzzzz")) family_AB23CD = (family_AB23CD, Status404)
  ∧ serve (family_info "ab23cd") family_AB23CD = (family_AB23CD, Status404).
Proof.
  destruct (unknown_family_is_not_found family_AB23CD) as (Hjoin & _ & Hinfo).
  split; [apply Hjoin | apply Hinfo]; reflexivity.
Defined.

(** ** Watermarks *)

Lemma newer_rows_filter code s1 s2 m :
  s1 <= s2 ->
  newer_rows code s2 m
  = filter (fun kr : (string * string) * entry_row => s2 < en_updated_at kr.2)
           (newer_rows code s1 m).
Proof.
  intros Hle. unfold newer_rows. rewrite list_filter_filter.
  apply list_filter_iff. intros [k row]. cbn. split.
  - intros [Hk Hlt]. repeat split; [done|done|lia].
  - intros [Hlt [Hk _]]. done.
Qed.

(** X20: Raising the watermark of a pull only drops entries: what a pull
    returns for a later [since] is, in the same order, part of what it
    returns for an earlier one, and the device list is the same. *)
Theorem pull_shrinks_with_since now code st s1 s2 :
  code ≠ "" ->
  is_Some (families st !! code) ->
  s1 <= s2 ->
  exists b1 b2,
    serve (sync_pull now (PullReq (Some code) (Some s1))) st = (st, Json200 b1)
    ∧ serve (sync_pull now (PullReq (Some code) (Some s2))) st = (st, Json200 b2)
    ∧ pb_entries b2 `sublist_of` pb_entries b1
    ∧ pb_devices b2 = pb_devices b1.
Proof.
  intros Hcode Hfam Hle.
  do 2 eexists. split; [by apply serve_sync_pull_known|].
  split; [by apply serve_sync_pull_known|].
  cbn [pb_entries pb_devices]. split; [|done].
  rewrite !num_or_zero. rewrite (newer_rows_filter code s1 s2) by done.
  apply fmap_sublist, sublist_filter.
Qed.

Lemma pull_shrinks_with_since_witness :
  exists b1 b2,
    serve (sync_pull 900 (PullReq (Some "AB23CD") (Some 50))) family_with_entry
    = (family_with_entry, Json200 b1)
    ∧ serve (sync_pull 900 (PullReq (Some "AB23CD") (Some 100))) family_with_entry
      = (family_with_entry, Json200 b2)
    ∧ pb_entries b2 `sublist_of` pb_entries b1
    ∧ pb_devices b2 = pb_devices b1.
Proof.
  apply (pull_shrinks_with_since 900 "AB23CD" family_with_entry 50 100).
  - discriminate.
  - eexists. reflexivity.
  - lia.
Defined.

(** ** A push can be repeated *)

Lemma batch_entries_union code now items m :
  batch_entries code now items m = batch_entries code now items ∅ ∪ m.
Proof.
  revert m. induction items as [|e rest IH]; intros m.
  - cbn. by rewrite (left_id_L ∅ (∪)).
  - rewrite !batch_entries_cons. destruct (e_id e) as [i|]; [|apply IH].
    rewrite (IH (<[_ := _]> m)), (IH (<[_ := _]> ∅)).
    rewrite <- (assoc_L (∪)). f_equal.
    by rewrite insert_union_singleton_l, <- insert_empty.
Qed.

Lemma batch_entries_idemp code now items m :
  batch_entries code now items (batch_entries code now items m)
  = batch_entries code now items m.
Proof.
  rewrite (batch_entries_union _ _ _ (batch_entries code now items m)).
  rewrite (batch_entries_union _ _ _ m).
  by rewrite (assoc_L (∪)), (idemp_L (∪)).
Qed.

(** X21: Sending the same push again at the same time changes nothing: the
    database after the second push is the one after the first and the
    answer is the same, whatever the first one answered. *)
Theorem push_is_idempotent now req st :
  serve (sync_push now req) (serve (sync_push now req) st).1
  = serve (sync_push now req) st.
Proof.
  rewrite (serve_sync_push now req st).
  destruct (negb _ || negb _) eqn:Hguard;
    [cbn [fst]; by rewrite serve_sync_push, Hguard|].
  cbv zeta.
  destruct (families st !! default "" (p_code req)) as [row|] eqn:Hrow;
    [|cbn [fst]; rewrite serve_sync_push, Hguard; cbv zeta; by rewrite Hrow].
  destruct (decide (Forall has_id (default [] (p_entries req)))) as [Hall|Hnot];
    cbn [fst]; rewrite serve_sync_push, Hguard; cbv zeta;
    cbn [families sync_data entries].
  - rewrite lookup_alter_eq, Hrow. cbn [fmap option_fmap option_map].
    rewrite decide_True by done.
    rewrite batch_entries_idemp, insert_insert_eq, alter_alter_eq.
    reflexivity.
  - rewrite Hrow, decide_False by done. by rewrite insert_insert_eq.
Qed.

(** ** Tombstones and the entry count of the info *)

Lemma live_rows_insert_tombstone (code : string)
    (m : gmap (string * string) entry_row)
    (i : string) old new :
  m !! (code, i) = Some old ->
  en_deleted old = 0 ->
  en_deleted new ≠ 0 ->
  length (live_rows code m)
  = S (length (live_rows code (<[(code, i) := new]> m))).
Proof.
  intros Hold Hlive Hdead. unfold live_rows.
  rewrite <- (insert_delete_id m (code, i) old) at 1 by done.
  rewrite <- (insert_delete_eq m (code, i) new).
  rewrite !map_to_list_insert by apply lookup_delete_eq.
  rewrite !filter_cons. cbn [fst snd].
  rewrite decide_True by done.
  rewrite decide_False by (intros [_ Hz]; done).
  reflexivity.
Qed.

(** X22: Pushing the tombstone of an entry that is stored and not deleted
    lowers the entry count of the family's info by one; the row itself
    stays. *)
Theorem tombstone_lowers_entry_count now req st st' n code e i old :
  serve (sync_push now req) st = (st', Json200 n) ->
  p_code req = Some code ->
  p_entries req = Some [e] ->
  e_id e = Some i ->
  e_deleted e = Some (JBool true) ->
  entries st !! (code, i) = Some old ->
  en_deleted old = 0 ->
  exists info info',
    serve (family_info code) st = (st, Json200 info)
    ∧ serve (family_info code) st' = (st', Json200 info')
    ∧ ib_entries info = S (ib_entries info')
    ∧ is_Some (entries st' !! (code, i)).
Proof.
  intros Hserve Hcode Hitems Hid Hdel Hold Hlive.
  apply sync_push_200_inv in Hserve
    as (code' & dev & Hcode' & _ & _ & _ & [row Hrow] & _ & _ & ->).
  assert (code' = code) as -> by congruence.
  rewrite Hitems. cbn [default from_option id].
  rewrite batch_entries_cons, Hid. change (batch_entries code now [] ?m) with m.
  rewrite !serve_family_info. cbn [families sync_data entries].
  rewrite lookup_alter_eq, Hrow. cbn [fmap option_fmap option_map].
  do 2 eexists. split; [reflexivity|]. split; [reflexivity|].
  cbn [ib_entries]. split; [|rewrite lookup_insert_eq; by eexists].
  apply (live_rows_insert_tombstone code (entries st) i old); [done|done|].
  unfold batch_row. cbn [en_deleted]. by rewrite Hdel.
Qed.

Lemma tombstone_lowers_entry_count_witness :
  exists info info',
    serve (family_info "AB23CD") family_with_entry
    = (family_with_entry, Json200 info)
    ∧ serve (family_info "AB23CD") family_with_tombstone
      = (family_with_tombstone, Json200 info')
    ∧ ib_entries info = S (ib_entries info').
Proof.
  destruct (tombstone_lowers_entry_count 700
              (PushReq (Some "AB23CD") (Some "d2") None (Some [entry_e1_deleted]))
              family_with_entry family_with_tombstone 1%nat "AB23CD"
              entry_e1_deleted "e1" (EntryRow entry_e1 0 100))
    as (info & info' & H1 & H2 & Hcount & _); try reflexivity.
  by exists info, info'.
Defined.

(** ** More on what a push writes *)

(** X23: A push that passes the parameter check for a family that exists
    and whose batch holds an entry without id (missing or [null]) is
    answered with status 500: the [NOT NULL] of [entry_id] aborts the
    transaction, so no entry of the batch is stored and [families] is not
    touched, while the snapshot row written before the batch stays. *)
Theorem push_fails_on_missing_id now req st code device_id items e :
  p_code req = Some code -> code ≠ "" ->
  p_device_id req = Some device_id -> device_id ≠ "" ->
  is_Some (families st !! code) ->
  p_entries req = Some items -> e ∈ items -> e_id e = None ->
  serve (sync_push now req) st
  = (Db (families st)
        (<[(code, device_id) :=
             SyncRow (or_default (p_babies req) (JArr [])) now]> (sync_data st))
        (entries st),
     Status500).
Proof.
  intros Hcode Hne Hdev Hdne [row Hrow] Hitems He Hid.
  rewrite serve_sync_push, Hcode, Hdev, Hitems.
  rewrite !str_truthy_Some by done. cbn [negb orb default from_option id].
  rewrite Hrow. rewrite decide_False; [done|].
  intros Hall. destruct (proj1 (Forall_forall _ _) Hall e He) as [i Hi].
  congruence.
Qed.

Lemma push_fails_on_missing_id_witness :
  (serve (sync_push 500
            (PushReq (Some "AB23CD") (Some "d1") None
                     (Some [entry_e1; entry_no_id])))
         family_AB23CD).2 = Status500
  ∧ entries (serve (sync_push 500
                      (PushReq (Some "AB23CD") (Some "d1") None
                               (Some [entry_e1; entry_no_id])))
                   family_AB23CD).1 = entries family_AB23CD.
Proof.
  rewrite (push_fails_on_missing_id 500
             (PushReq (Some "AB23CD") (Some "d1") None
                      (Some [entry_e1; entry_no_id]))
             family_AB23CD "AB23CD" "d1" [entry_e1; entry_no_id] entry_no_id).
  - split; reflexivity.
  - reflexivity.
  - discriminate.
  - reflexivity.
  - discriminate.
  - eexists. reflexivity.
  - reflexivity.
  - apply list_elem_of_In. right. left. reflexivity.
  - reflexivity.
Defined.

(** X24: A push, whatever it answers, leaves every entry row whose id does
    not occur in its batch as it was. *)
Theorem push_touches_only_batch_ids now req st k :
  (forall items e, p_entries req = Some items -> e ∈ items -> e_id e ≠ Some k.2) ->
  entries (serve (sync_push now req) st).1 !! k = entries st !! k.
Proof.
  intros Hno. rewrite serve_sync_push.
  destruct (negb _ || negb _); [done|]. cbv zeta.
  destruct (families st !! default "" (p_code req)); [|done].
  destruct (decide (Forall has_id _)); cbn [fst entries]; [|done].
  apply batch_entries_other. intros e He.
  destruct (p_entries req) as [items|]; [|by apply elem_of_nil in He].
  by apply (Hno items).
Qed.

Lemma push_touches_only_batch_ids_witness :
  entries (serve (sync_push 800
                    (PushReq (Some "AB23CD") (Some "d1") None
                             (Some [entry_ts_zero])))
                 family_with_entry).1 !! ("AB23CD", "e1")
  = Some (EntryRow entry_e1 0 100).
Proof.
  rewrite (push_touches_only_batch_ids 800
             (PushReq (Some "AB23CD") (Some "d1") None (Some [entry_ts_zero]))
             family_with_entry ("AB23CD", "e1")).
  - reflexivity.
  - intros items e [= <-] He. apply list_elem_of_singleton in He. subst e.
    discriminate.
Defined.

Lemma batch_entries_clock code now now' items m :
  Forall (fun e => exists t, e_ts e = Some t ∧ t ≠ 0) items ->
  batch_entries code now items m = batch_entries code now' items m.
Proof.
  intros Hall. revert m.
  induction Hall as [|e rest (t & Ht & Hnz) _ IH]; intros m; [done|].
  rewrite !batch_entries_cons, IH. destruct (e_id e) as [i|]; [|done].
  do 2 f_equal. unfold batch_row, num_or. rewrite Ht.
  by destruct (Z.eqb_spec t 0).
Qed.

(** X25: When every entry of a batch carries its own non-zero [_ts], the
    entry rows that the push leaves do not depend on the time at which the
    server receives it. *)
Theorem push_entries_ignore_clock now now' req st :
  (forall items, p_entries req = Some items ->
     Forall (fun e => exists t, e_ts e = Some t ∧ t ≠ 0) items) ->
  entries (serve (sync_push now req) st).1
  = entries (serve (sync_push now' req) st).1.
Proof.
  intros Hts. rewrite !serve_sync_push.
  destruct (negb _ || negb _); [done|]. cbv zeta.
  destruct (families st !! default "" (p_code req)); [|done].
  destruct (decide (Forall has_id _)); cbn [fst entries]; [|done].
  apply batch_entries_clock.
  destruct (p_entries req) as [items|]; [by apply Hts | constructor].
Qed.

Lemma push_entries_ignore_clock_witness :
  entries (serve (sync_push 500
                    (PushReq (Some "AB23CD") (Some "d1") None (Some [entry_e1])))
                 family_AB23CD).1
  = entries (serve (sync_push 99999
                      (PushReq (Some "AB23CD") (Some "d1") None (Some [entry_e1])))
                   family_AB23CD).1.
Proof.
  apply (push_entries_ignore_clock 500 99999
           (PushReq (Some "AB23CD") (Some "d1") None (Some [entry_e1]))
           family_AB23CD).
  intros items [= <-]. constructor; [|constructor].
  exists 100. split; [reflexivity | discriminate].
Defined.

(** X26: The entry rows and the family rows that a push leaves do not depend
    on the device that sends it: entries are keyed by family and entry id
    only, and a second device overwrites the rows of the first. *)
Theorem push_entries_ignore_device now code d1 d2 babies1 babies2 items st :
  d1 ≠ "" -> d2 ≠ "" ->
  entries (serve (sync_push now (PushReq code (Some d1) babies1 items)) st).1
  = entries (serve (sync_push now (PushReq code (Some d2) babies2 items)) st).1
  ∧ families (serve (sync_push now (PushReq code (Some d1) babies1 items)) st).1
    = families (serve (sync_push now (PushReq code (Some d2) babies2 items)) st).1
  ∧ (serve (sync_push now (PushReq code (Some d1) babies1 items)) st).2
    = (serve (sync_push now (PushReq code (Some d2) babies2 items)) st).2.
Proof.
  intros Hd1 Hd2. rewrite !serve_sync_push. cbn [p_code p_device_id p_entries].
  rewrite !(str_truthy_Some d1), !(str_truthy_Some d2) by done.
  destruct (negb (str_truthy code) || negb true); [done|]. cbv zeta.
  destruct (families st !! default "" code); [|done].
  by destruct (decide (Forall has_id _)).
Qed.

Lemma push_entries_ignore_device_witness :
  entries (serve (sync_push 700
                    (PushReq (Some "AB23CD") (Some "d2") None
                             (Some [entry_e1_deleted])))
                 family_with_entry).1
  = entries (serve (sync_push 700
                      (PushReq (Some "AB23CD") (Some "d1") None
                               (Some [entry_e1_deleted])))
                   family_with_entry).1.
Proof.
  apply (push_entries_ignore_device 700 (Some "AB23CD") "d2" "d1" None None
           (Some [entry_e1_deleted]) family_with_entry); discriminate.
Defined.
